(** * SET solver: the card and hand model of [SET_solver.py] and the
      validity check of [test.py], with the properties of the two searches.

    Python values are modelled as follows.
    - An [int] is a [Z]; a Python [list] is a [list], read with stdpp's
      lookup [!!] and written with [<[i:=x]>].
    - A call that may raise is a computation in [py]; the only exception the
      modelled code can raise is [IndexError] (a subscript out of range).
    - A [set] of cards is the list of its entries in iteration order.  Python
      leaves that order unspecified, so every theorem about a hand holds for
      an arbitrary duplicate-free order.
    - The builtin [hash] of a tuple is a parameter ([PyHash]); [cpython_hash]
      is the instance CPython 3.8+ computes on tuples of ints.
    - [random.sample] is given by the positions it draws, and [str] of an
      int is stdpp's [pretty]. *)

From Stdlib Require Import Ascii.
From stdpp Require Import base decidable option numbers list list_numbers strings pretty.

Local Open Scope Z_scope.

(** ** Results of Python calls *)

Inductive py (A : Type) : Type :=
  | Ret (a : A)
  | IndexError.
Arguments Ret {A} a.
Arguments IndexError {A}.

#[global] Instance py_ret : MRet py := @Ret.
#[global] Instance py_bind : MBind py := λ A B f m,
  match m with
  | Ret a => f a
  | IndexError => IndexError
  end.

(** [l[index]] for a non-negative [index]. *)
Definition getitem {A} (l : list A) (index : nat) : py A :=
  match l !! index with
  | Some x => Ret x
  | None => IndexError
  end.

(** [l[index] = x] for a non-negative [index]: the list after the
    assignment. *)
Definition setitem {A} (l : list A) (index : nat) (x : A) : py (list A) :=
  if bool_decide (index < length l)%nat then Ret (<[index := x]> l) else IndexError.

(** [str(x)] for an int is [pretty x]: decimal, with a minus sign when
    negative.  The newline of a string literal: *)
Definition newline : string := String "010"%char "".

(** [range(n)], as natural numbers (used as indices) and as ints. *)
Definition range (n : nat) : list nat := seq 0 n.
Definition int_range (n : nat) : list Z := Z.of_nat <$> seq 0 n.

(** [set(l)] for a list of ints: only its length and membership are used. *)
Definition int_set (l : list Z) : list Z := remove_dups l.

(** [s - t] on sets of ints, listed in the order of [s] (ascending for
    [set(range(n))], as CPython iterates a set of small ints).  Where the
    code takes the first element of such a difference on cards of one shape
    the difference has a single element ([difference_singleton]). *)
Definition set_difference (s t : list Z) : list Z := list_difference s t.

(** [itertools.combinations(l, 2)]: the pairs [(l[i], l[j])], [i < j], in
    lexicographic order of the positions. *)
Fixpoint combinations2 {A} (l : list A) : list (A * A) :=
  match l with
  | [] => []
  | x :: l' => (pair x <$> l') ++ combinations2 l'
  end.

(** ** The builtin hash of a tuple of ints *)

Class PyHash := tuple_hash : list Z → Z.

Definition XXPRIME_1 : Z := 11400714785074694791.
Definition XXPRIME_2 : Z := 14029467366897019727.
Definition XXPRIME_5 : Z := 2870177450012600261.

Definition u64 (x : Z) : Z := x `mod` 2 ^ 64.
Definition i64 (x : Z) : Z := if bool_decide (x < 2 ^ 63) then x else x - 2 ^ 64.
Definition xxrotate (x : Z) : Z := u64 (Z.lor (Z.shiftl x 31) (Z.shiftr x 33)).

Definition int_hash (x : Z) : Z :=
  let h := Z.sgn x * (Z.abs x `mod` (2 ^ 61 - 1)) in
  if bool_decide (h = -1) then -2 else h.

Definition cpython_hash : PyHash := λ t,
  let lane acc item :=
    u64 (xxrotate (u64 (acc + u64 (int_hash item) * XXPRIME_2)) * XXPRIME_1) in
  let acc := foldl lane XXPRIME_5 t in
  let acc := u64 (acc + Z.lxor (Z.of_nat (length t)) (Z.lxor XXPRIME_5 3527539)) in
  if bool_decide (acc = 2 ^ 64 - 1) then 1546275796 else i64 acc.

(** ** class Card *)

Module Card.

Record t : Type := mk { p : nat; v : nat; values : list Z }.

(** [Card.__init__]: [v] is fixed at 3. *)
Definition __init__ (values : list Z) : t :=
  {| p := length values; v := 3; values := values |}.

(** The loop of [Card.__eq__] over [enumerate(self.values)]. *)
Fixpoint eq_loop (other_values : list Z) (index : nat) (rest : list Z) : py bool :=
  match rest with
  | [] => Ret true
  | value :: rest' =>
      x ← getitem other_values index;
      if bool_decide (value ≠ x) then Ret false
      else eq_loop other_values (S index) rest'
  end.

Definition __eq__ (self other : t) : py bool :=
  eq_loop (values other) 0 (values self).

Definition __hash__ `{PyHash} (self : t) : Z := tuple_hash (values self).

(** The loop of [Card.__repr__] over [self.values]. *)
Fixpoint repr_loop (values : list Z) (card_str : string) : string :=
  match values with
  | [] => card_str
  | val :: values' => repr_loop values' (card_str +:+ pretty val +:+ ", ")
  end.

Definition __repr__ (self : t) : string := repr_loop (values self) "Card: ".

End Card.

(** ** class Hand *)

Module Hand.

Record t : Type := mk { cards : list Card.t; size : nat }.

(** Membership of [key] in a set of cards with the given entries: an entry
    matches when its hash equals the key's and [entry == key] is true.  (An
    entry that is the key itself matches too; [__eq__] is true there.) *)
Fixpoint set_contains `{PyHash} (entries : list Card.t) (key : Card.t) : py bool :=
  match entries with
  | [] => Ret false
  | entry :: entries' =>
      if bool_decide (Card.__hash__ entry = Card.__hash__ key) then
        b ← Card.__eq__ entry key;
        if b : bool then Ret true else set_contains entries' key
      else set_contains entries' key
  end.

(** [set(cards)]: each card is added unless the set contains it already. *)
Fixpoint set_of `{PyHash} (entries : list Card.t) (cards : list Card.t) : py (list Card.t) :=
  match cards with
  | [] => Ret entries
  | card :: cards' =>
      b ← set_contains entries card;
      if b : bool then set_of entries cards' else set_of (entries ++ [card]) cards'
  end.

(** [Hand.__init__]; [None] stands for Python's [None]. *)
Definition __init__ `{PyHash} (cards : option (list Card.t)) : py t :=
  entries ← match cards with
            | None => Ret []
            | Some cards => set_of [] cards
            end;
  Ret {| cards := entries; size := length entries |}.

Definition find_card `{PyHash} (self : t) (card : Card.t) : py bool :=
  set_contains (cards self) card.

(** The loop of [calculate_third_card] over [range(card1.p)], updating
    [card3_values] in place. *)
Fixpoint third_loop (card1 card2 : Card.t) (ps : list nat) (card3_values : list Z)
    : py (list Z) :=
  match ps with
  | [] => Ret card3_values
  | p :: ps' =>
      x1 ← getitem (Card.values card1) p;
      x2 ← getitem (Card.values card2) p;
      let p_set := int_set [x1; x2] in
      if bool_decide (length p_set < 2)%nat then
        x ← getitem (Card.values card1) p;
        card3_values ← setitem card3_values p x;
        third_loop card1 card2 ps' card3_values
      else
        x ← getitem (set_difference (int_range (Card.v card1)) p_set) 0;
        card3_values ← setitem card3_values p x;
        third_loop card1 card2 ps' card3_values
  end.

Definition calculate_third_card (card1 card2 : Card.t) : py Card.t :=
  let card3_values := replicate (Card.p card1) 0 in
  card3_values ← third_loop card1 card2 (range (Card.p card1)) card3_values;
  Ret (Card.__init__ card3_values).

(** The loop shared by the two searches: the first pair whose third card
    is in the hand. *)
Fixpoint search `{PyHash} (self : t) (pairs : list (Card.t * Card.t))
    : py (option (Card.t * Card.t * Card.t)) :=
  match pairs with
  | [] => Ret None
  | (c1, c2) :: pairs' =>
      c3 ← calculate_third_card c1 c2;
      b ← find_card self c3;
      if b : bool then Ret (Some (c1, c2, c3)) else search self pairs'
  end.

(** The pairs [find_set] enumerates. *)
Definition find_set_pairs (self : t) : list (Card.t * Card.t) :=
  let part1 := take (size self / 2)%nat (cards self) in
  let part2 := drop (size self / 2)%nat (cards self) in
  let pairs1 := combinations2 part1 in
  let pairs2 := combinations2 part2 in
  pairs1 ++ pairs2.

Definition find_set `{PyHash} (self : t) : py (option (Card.t * Card.t * Card.t)) :=
  search self (find_set_pairs self).

Definition find_set_brute_force `{PyHash} (self : t)
    : py (option (Card.t * Card.t * Card.t)) :=
  let pairs := combinations2 (cards self) in
  search self pairs.

(** The loop of [Hand.__repr__] over [self.cards]; [str(card)] is the
    card's [__repr__]. *)
Fixpoint repr_loop (cards : list Card.t) (hand_str : string) : string :=
  match cards with
  | [] => hand_str
  | card :: cards' => repr_loop cards' (hand_str +:+ Card.__repr__ card +:+ newline)
  end.

Definition __repr__ (self : t) : string :=
  let hand_str := "Hand is: {" +:+ newline in
  let hand_str := repr_loop (cards self) hand_str in
  hand_str +:+ "}".

End Hand.

(** ** test.py *)

Module Test.

(** The loop of [is_valid_SET] over the property indices. *)
Fixpoint valid_loop (SET : list Card.t) (indices : list nat) : py bool :=
  match indices with
  | [] => Ret true
  | i :: indices' =>
      values ← mapM (λ c, getitem (Card.values c) i) SET;
      let n := length (int_set values) in
      if bool_decide (1 < n)%nat && bool_decide (n < length values)%nat then Ret false
      else valid_loop SET indices'
  end.

Definition is_valid_SET (SET : list Card.t) : py bool :=
  c0 ← getitem SET 0;
  valid_loop SET (range (Card.p c0)).

(** The assertions of one round of [test_1000_valid_SETs] on a hand:
    [Ret true] when they all pass, [Ret false] when one fails.  A found
    triple is truthy and never equals [None]. *)
Definition check_hand `{PyHash} (hand : Hand.t) : py bool :=
  set1 ← Hand.find_set hand;
  set2 ← Hand.find_set_brute_force hand;
  match set1, set2 with
  | Some (a1, b1, c1), Some (a2, b2, c2) =>
      valid1 ← is_valid_SET [a1; b1; c1];
      if bool_decide (valid1 = true) then
        valid2 ← is_valid_SET [a2; b2; c2];
        Ret (bool_decide (valid2 = true))
      else Ret false
  | None, None => Ret true
  | _, _ => Ret false
  end.

End Test.

(** ** class Deck *)

Module Deck.

Record t : Type := mk { cards : list Card.t; p : nat; v : Z; size : Z }.

(** The inner loop of [Deck.__init__] over [range(self.p)]: the values of
    card number [i].  [%] and [//] are Python's flooring operations, as are
    [`mod`] and [`div`] on [Z]; the loop body is reached only with a non-zero
    [v] (see [Deck_init_size]). *)
Fixpoint values_loop (v : Z) (js : list nat) (i : Z) (values : list Z) : list Z :=
  match js with
  | [] => values
  | _ :: js' =>
      let v_j := i `mod` v in
      values_loop v js' (i `div` v) (values ++ [v_j])
  end.

(** The outer loop over [range(self.size)]. *)
Fixpoint cards_loop (p : nat) (v : Z) (indices : list Z) (cards : list Card.t)
    : list Card.t :=
  match indices with
  | [] => cards
  | i :: indices' =>
      let values := values_loop v (range p) i [] in
      let c := Card.__init__ values in
      cards_loop p v indices' (cards ++ [c])
  end.

(** [Deck.__init__] for a number of properties [p >= 0]; [range(size)] is
    empty when [size] is negative. *)
Definition __init__ (p : nat) (v : Z) : t :=
  let size := v ^ Z.of_nat p in
  {| cards := cards_loop p v (Z.of_nat <$> range (Z.to_nat size)) [];
     p := p; v := v; size := size |}.

(** [Deck.__repr__]; [%i] prints an int as [str] does. *)
Definition __repr__ (self : t) : string :=
  "Deck with " +:+ pretty (size self) +:+ " cards, " +:+ pretty (v self)
  +:+ " values, and " +:+ pretty (Z.of_nat (p self)) +:+ " properties".

(** [Deck.deal]: [random.sample(self.cards, n)] is given by the positions
    [picks] it draws, [n] of them, and the hand is made of the cards there
    in the order drawn. *)
Definition deal `{PyHash} (self : t) (picks : list nat) : py Hand.t :=
  cards ← mapM (getitem (cards self)) picks;
  Hand.__init__ (Some cards).

End Deck.

(** ** test.py, the test on dealt hands *)

Module TestDeck.

(** The loop of [test_1000_valid_SETs] over the draws of [deck.deal()], one
    list of positions per round; it stops at the first failing assertion. *)
Fixpoint test_loop `{PyHash} (deck : Deck.t) (draws : list (list nat)) : py bool :=
  match draws with
  | [] => Ret true
  | picks :: draws' =>
      hand ← Deck.deal deck picks;
      passed ← Test.check_hand hand;
      if passed : bool then test_loop deck draws' else Ret false
  end.

Definition test_1000_valid_SETs `{PyHash} (draws : list (list nat)) : py bool :=
  let deck := Deck.__init__ 4 3 in
  test_loop deck draws.

End TestDeck.

(** ** Well-formed cards and hands, and the rule of the game *)

#[global] Instance card_eq_dec : EqDecision Card.t.
Proof. solve_decision. Defined.

#[global] Instance py_eq_dec {A} `{EqDecision A} : EqDecision (py A).
Proof. solve_decision. Defined.

(** A card of shape [n]: built by [Card.__init__] from [n] values of [0,3). *)
Definition wf_card (n : nat) (c : Card.t) : Prop :=
  Card.p c = n ∧ Card.v c = 3%nat ∧ length (Card.values c) = n ∧
  Forall (λ x, 0 ≤ x < 3) (Card.values c).

(** A hand: the duplicate-free entries of a set of cards of one shape, in
    any order, with its recorded size. *)
Definition wf_hand (n : nat) (h : Hand.t) : Prop :=
  Hand.size h = length (Hand.cards h) ∧
  NoDup (Card.values <$> Hand.cards h) ∧
  Forall (wf_card n) (Hand.cards h).

(** Three values of one property: all the same or pairwise different. *)
Definition same_or_different (x y z : Z) : Prop :=
  (x = y ∧ y = z) ∨ (x ≠ y ∧ y ≠ z ∧ x ≠ z).

(** The rule of the game on three cards. *)
Definition valid_SET (a b c : Card.t) : Prop :=
  ∀ i x y z,
    Card.values a !! i = Some x → Card.values b !! i = Some y →
    Card.values c !! i = Some z → same_or_different x y z.

(** [itertools.combinations(l, 3)], the ground truth of the search. *)
Fixpoint combinations3 {A} (l : list A) : list (A * A * A) :=
  match l with
  | [] => []
  | x :: l' => ((λ yz, (x, yz.1, yz.2)) <$> combinations2 l') ++ combinations3 l'
  end.

(** The exhaustive answer: some three cards of the hand pass [is_valid_SET]. *)
Definition has_valid_SET (h : Hand.t) : Prop :=
  Exists (λ t, Test.is_valid_SET [t.1.1; t.1.2; t.2] = Ret true)
         (combinations3 (Hand.cards h)).

(** Binomial coefficients, by Pascal's rule. *)
Fixpoint binom (n k : nat) : nat :=
  match n, k with
  | _, O => 1
  | O, S _ => 0
  | S n', S k' => (binom n' k' + binom n' k)%nat
  end.

(** The value that completes two values of a property, and the card that
    completes two cards, in closed form. *)
Definition third_value (x y : Z) : Z := if bool_decide (x = y) then x else 3 - x - y.

Definition third_card (a b : Card.t) : Card.t :=
  Card.__init__ (zip_with third_value (Card.values a) (Card.values b)).

(** A pair of cards whose completing card is in the hand. *)
Definition completes (h : Hand.t) (pr : Card.t * Card.t) : Prop :=
  third_card pr.1 pr.2 ∈ Hand.cards h.

(** The triple the searches return for a pair. *)
Definition triple_of (pr : Card.t * Card.t) : Card.t * Card.t * Card.t :=
  (pr.1, pr.2, third_card pr.1 pr.2).

#[global] Instance completes_dec h pr : Decision (completes h pr).
Proof. unfold completes. apply _. Defined.
#[global] Instance wf_card_dec n c : Decision (wf_card n c).
Proof. unfold wf_card. apply _. Defined.
#[global] Instance wf_hand_dec n h : Decision (wf_hand n h).
Proof. unfold wf_hand. apply _. Defined.
#[global] Instance has_valid_SET_dec h : Decision (has_valid_SET h).
Proof. unfold has_valid_SET. apply _. Defined.

(** The [p] digits of [i] in base [v], least significant first, and the
    number a list of digits stands for. *)
Fixpoint digits (v : Z) (p : nat) (i : Z) : list Z :=
  match p with
  | O => []
  | S p' => i `mod` v :: digits v p' (i `div` v)
  end.

Fixpoint undigits (v : Z) (ds : list Z) : Z :=
  match ds with
  | [] => 0
  | d :: ds' => d + v * undigits v ds'
  end.

(** What the loop of [calculate_third_card] stores for two values, whatever
    ints they are. *)
Definition completing (x y z : Z) : Prop :=
  (x = y → z = x) ∧ (x ≠ y → 0 ≤ z < 3 ∧ z ≠ x ∧ z ≠ y).

(** The characters of a string. *)
Definition chars (s : string) : list ascii := String.list_ascii_of_string s.

(** The characters [str] may print for an int. *)
Definition sign_or_digit (c : ascii) : Prop := c ∈ chars "-0123456789".

(** What the loops of [Card.__repr__] and [Hand.__repr__] append. *)
Fixpoint card_body (values : list Z) : string :=
  match values with
  | [] => ""
  | val :: values' => pretty val +:+ ", " +:+ card_body values'
  end.

Fixpoint hand_body (cards : list Card.t) : string :=
  match cards with
  | [] => ""
  | card :: cards' => Card.__repr__ card +:+ newline +:+ hand_body cards'
  end.

(** What [random.sample] may draw from a population of [n] elements:
    positions within the population, no position twice. *)
Definition sampled (n : nat) (picks : list nat) : Prop :=
  NoDup picks ∧ Forall (λ i, i < n)%nat picks.

#[global] Instance sampled_dec n picks : Decision (sampled n picks).
Proof. unfold sampled. apply _. Defined.

(** Cards and hands of the standard deck (four properties), used to run the
    model: the triples of [test.py] and a larger hand. *)
Definition sample_card1 : Card.t := Card.__init__ [0; 1; 2; 0].
Definition sample_card2 : Card.t := Card.__init__ [1; 2; 2; 1].
Definition sample_card3 : Card.t := Card.__init__ [2; 0; 2; 2].
Definition sample_card4 : Card.t := Card.__init__ [0; 0; 1; 0].
Definition sample_card5 : Card.t := Card.__init__ [0; 2; 2; 1].
Definition sample_card6 : Card.t := Card.__init__ [0; 0; 0; 2].

Definition sample_hand : Hand.t :=
  {| Hand.cards := [sample_card4; sample_card1; sample_card5; sample_card2;
                    sample_card6; sample_card3];
     Hand.size := 6 |}.

Definition sample_hand_no_SET : Hand.t :=
  {| Hand.cards := [sample_card4; sample_card5; sample_card6]; Hand.size := 3 |}.

(** * Properties *)

(** ** Python results *)

Lemma getitem_Ret {A} (l : list A) i x : l !! i = Some x → getitem l i = Ret x.
Proof. unfold getitem. by intros ->. Qed.

Lemma getitem_IndexError {A} (l : list A) i :
  (length l ≤ i)%nat → getitem l i = IndexError.
Proof. intros Hi. unfold getitem. by rewrite lookup_ge_None_2. Qed.

Lemma bind_Ret {A B} (f : A → py B) (a : A) : (Ret a ≫= f) = f a.
Proof. reflexivity. Qed.

(** ** Card equality *)

Section card_eq.

(** The loop answers [True] exactly when the rest of [self.values] is what
    [other.values] holds from [index] on, up to the length of the rest. *)
Lemma eq_loop_Ret_true other index rest :
  Card.eq_loop other index rest = Ret true ↔ rest `prefix_of` drop index other.
Proof.
  revert index. induction rest as [|value rest IH]; intros index; simpl.
  - split; [intros _; apply prefix_nil | done].
  - unfold getitem. destruct (other !! index) as [x|] eqn:Hx; simpl.
    + rewrite (drop_S _ _ _ Hx). case_bool_decide as Hne.
      * split; [done|]. intros Hp. by apply prefix_cons_inv_1 in Hp.
      * subst x. rewrite IH. split.
        -- apply prefix_cons.
        -- apply prefix_cons_inv_2.
    + rewrite drop_ge by by apply lookup_ge_None. split; [done|].
      intros Hp. by apply prefix_nil_not in Hp.
Qed.

(** It raises exactly when [other.values] runs out first with no
    difference met. *)
Lemma eq_loop_IndexError other index rest :
  Card.eq_loop other index rest = IndexError ↔
  drop index other `prefix_of` rest ∧ drop index other ≠ rest.
Proof.
  revert index. induction rest as [|value rest IH]; intros index; simpl.
  - split; [done|]. intros [Hp Hne]. by apply prefix_nil_inv in Hp.
  - unfold getitem. destruct (other !! index) as [x|] eqn:Hx; simpl.
    + rewrite (drop_S _ _ _ Hx). case_bool_decide as Hne.
      * split; [done|]. intros [Hp _]. apply prefix_cons_inv_1 in Hp. congruence.
      * subst x. rewrite IH. split.
        -- intros [Hp Hd]. split; [by apply prefix_cons | congruence].
        -- intros [Hp Hd]. split; [by apply prefix_cons_inv_2 in Hp | congruence].
    + rewrite drop_ge by by apply lookup_ge_None. split; [|done].
      intros _. split; [apply prefix_nil | done].
Qed.

Lemma Card_eq_Ret_true a b :
  Card.__eq__ a b = Ret true ↔ Card.values a `prefix_of` Card.values b.
Proof. unfold Card.__eq__. by rewrite eq_loop_Ret_true. Qed.

Lemma Card_eq_IndexError a b :
  Card.__eq__ a b = IndexError ↔
  Card.values b `prefix_of` Card.values a ∧ Card.values b ≠ Card.values a.
Proof. unfold Card.__eq__. by rewrite eq_loop_IndexError. Qed.

(** On cards of one length [__eq__] decides equality of the values. *)
Lemma Card_eq_same_length a b :
  length (Card.values a) = length (Card.values b) →
  Card.__eq__ a b = Ret (bool_decide (Card.values a = Card.values b)).
Proof.
  intros Hlen. destruct (Card.__eq__ a b) as [[]|] eqn:E.
  - apply Card_eq_Ret_true in E. rewrite bool_decide_eq_true_2; [done|].
    by apply prefix_length_eq; [|rewrite Hlen].
  - rewrite bool_decide_eq_false_2; [done|]. intros Hv.
    assert (Card.__eq__ a b = Ret true) as E'; [|congruence].
    apply Card_eq_Ret_true. by rewrite Hv.
  - apply Card_eq_IndexError in E as [Hp Hne]. destruct Hne.
    by apply prefix_length_eq; [|rewrite Hlen].
Qed.

Lemma wf_card_eq n a b :
  wf_card n a → wf_card n b → Card.values a = Card.values b → a = b.
Proof.
  destruct a, b. intros (?&?&?&?) (?&?&?&?) ?. simpl in *. congruence.
Qed.

Lemma wf_card_in_range n c i x :
  wf_card n c → Card.values c !! i = Some x → 0 ≤ x < 3.
Proof. intros (_&_&_&Hr) Hx. by eapply (Forall_lookup_1 _ _ _ _ Hr). Qed.

Lemma wf_card_init n l :
  length l = n → Forall (λ x, 0 ≤ x < 3) l → wf_card n (Card.__init__ l).
Proof. intros. by repeat split. Qed.

End card_eq.

(** ** The third value and the third card *)

Section third.

Implicit Types x y z : Z.

Lemma third_value_range x y : 0 ≤ x < 3 → 0 ≤ y < 3 → 0 ≤ third_value x y < 3.
Proof. unfold third_value. intros. case_bool_decide; lia. Qed.

Lemma third_value_comm x y : third_value x y = third_value y x.
Proof. unfold third_value. repeat case_bool_decide; lia. Qed.

Lemma third_value_invol x y :
  0 ≤ x < 3 → 0 ≤ y < 3 → third_value x (third_value x y) = y.
Proof. unfold third_value. intros. repeat case_bool_decide; lia. Qed.

Lemma third_value_same x y : x = y → third_value x y = x.
Proof. unfold third_value. intros. case_bool_decide; lia. Qed.

Lemma third_value_differs x y :
  0 ≤ x < 3 → 0 ≤ y < 3 → x ≠ y → third_value x y ≠ x ∧ third_value x y ≠ y.
Proof. unfold third_value. intros. case_bool_decide; lia. Qed.

Lemma third_value_unique x y z :
  0 ≤ x < 3 → 0 ≤ y < 3 → 0 ≤ z < 3 → x ≠ y → z ≠ x → z ≠ y → z = third_value x y.
Proof. unfold third_value. intros. case_bool_decide; lia. Qed.

Lemma same_or_different_third x y z :
  0 ≤ x < 3 → 0 ≤ y < 3 → 0 ≤ z < 3 →
  same_or_different x y z ↔ z = third_value x y.
Proof. unfold same_or_different, third_value. intros. case_bool_decide; lia. Qed.

Lemma in_range_cases x : 0 ≤ x < 3 → x = 0 ∨ x = 1 ∨ x = 2.
Proof. lia. Qed.

(** One round of the loop of [calculate_third_card] stores the third
    value: the set difference has exactly one element when the two values
    differ, so its first element does not depend on the set's order. *)
Lemma third_round {B} x1 x2 (k : Z → py B) :
  0 ≤ x1 < 3 → 0 ≤ x2 < 3 →
  (if bool_decide (length (int_set [x1; x2]) < 2)%nat
   then Ret x1 ≫= k
   else getitem (set_difference (int_range 3) (int_set [x1; x2])) 0 ≫= k)
  = k (third_value x1 x2).
Proof.
  intros H1 H2.
  destruct (in_range_cases _ H1) as [->|[->| ->]];
    destruct (in_range_cases _ H2) as [->|[->| ->]]; reflexivity.
Qed.

Lemma difference_singleton x1 x2 :
  0 ≤ x1 < 3 → 0 ≤ x2 < 3 → x1 ≠ x2 →
  set_difference (int_range 3) (int_set [x1; x2]) = [third_value x1 x2].
Proof.
  intros H1 H2 Hne.
  destruct (in_range_cases _ H1) as [->|[->| ->]];
    destruct (in_range_cases _ H2) as [->|[->| ->]]; done.
Qed.

Context (n : nat) (a b : Card.t) (Ha : wf_card n a) (Hb : wf_card n b).

Lemma wf_card_lookup c i : wf_card n c → (i < n)%nat →
  ∃ x, Card.values c !! i = Some x ∧ 0 ≤ x < 3.
Proof.
  intros (_&_&Hlen&Hr) Hi.
  destruct (lookup_lt_is_Some_2 (Card.values c) i) as [x Hx]; [lia|].
  exists x. split; [done|]. by eapply (Forall_lookup_1 _ _ _ _ Hr).
Qed.

Lemma third_loop_spec k i acc :
  (i + k = n)%nat → length acc = n →
  Hand.third_loop a b (seq i k) acc =
  Ret (take i acc ++ drop i (zip_with third_value (Card.values a) (Card.values b))).
Proof.
  revert i acc. induction k as [|k IH]; intros i acc Hik Hacc; simpl.
  - rewrite take_ge by lia. rewrite drop_ge; [by rewrite app_nil_r|].
    rewrite length_zip_with. destruct Ha as (_&_&->&_). lia.
  - destruct (wf_card_lookup a i Ha) as (x1&Hx1&Hr1); [lia|].
    destruct (wf_card_lookup b i Hb) as (x2&Hx2&Hr2); [lia|].
    rewrite (getitem_Ret _ _ _ Hx1), (getitem_Ret _ _ _ Hx2). simpl.
    destruct Ha as (_&->&_&_).
    trans (setitem acc i (third_value x1 x2) ≫= Hand.third_loop a b (seq (S i) k)).
    { exact (third_round x1 x2
               (λ x, setitem acc i x ≫= Hand.third_loop a b (seq (S i) k)) Hr1 Hr2). }
    unfold setitem. rewrite bool_decide_eq_true_2 by lia. cbn [mbind py_bind].
    rewrite IH by (rewrite ?length_insert; lia). f_equal.
    assert (zip_with third_value (Card.values a) (Card.values b) !! i
            = Some (third_value x1 x2)) as Hz.
    { rewrite lookup_zip_with, Hx1. simpl. by rewrite Hx2. }
    rewrite (drop_S _ _ _ Hz).
    rewrite (take_S_r _ _ (third_value x1 x2))
      by (apply list_lookup_insert_eq; lia).
    rewrite take_insert_ge by lia. by rewrite <- app_assoc.
Qed.

(** On two cards of one shape [calculate_third_card] returns, and returns
    the card of the third values. *)
Lemma calculate_third_card_spec : Hand.calculate_third_card a b = Ret (third_card a b).
Proof.
  unfold Hand.calculate_third_card, range.
  destruct Ha as (Hp&_&_&_). rewrite Hp.
  rewrite third_loop_spec by (rewrite ?length_replicate; lia). done.
Qed.

Lemma third_card_values_lookup i x y :
  Card.values a !! i = Some x → Card.values b !! i = Some y →
  Card.values (third_card a b) !! i = Some (third_value x y).
Proof. intros Hx Hy. simpl. rewrite lookup_zip_with, Hx. simpl. by rewrite Hy. Qed.

Lemma third_card_wf : wf_card n (third_card a b).
Proof.
  destruct Ha as (_&_&Hla&Hra), Hb as (_&_&Hlb&Hrb).
  apply wf_card_init.
  - rewrite length_zip_with. lia.
  - apply Forall_lookup. intros i z Hz.
    apply lookup_zip_with_Some in Hz as (x&y&->&Hx&Hy).
    apply third_value_range.
    + by eapply (Forall_lookup_1 _ _ _ _ Hra).
    + by eapply (Forall_lookup_1 _ _ _ _ Hrb).
Qed.

End third.

(** ** Completing two cards *)

Section completion.

Context (n : nat).
Implicit Types a b c : Card.t.

Lemma third_card_comm a b : third_card a b = third_card b a.
Proof.
  unfold third_card. f_equal. apply list_eq. intros i.
  rewrite !lookup_zip_with.
  destruct (Card.values a !! i), (Card.values b !! i); simpl; [|done..].
  by rewrite third_value_comm.
Qed.

Lemma wf_card_values_eq a b :
  wf_card n a → wf_card n b →
  (∀ i x y, Card.values a !! i = Some x → Card.values b !! i = Some y → x = y) →
  a = b.
Proof.
  intros Ha Hb Hxy. apply (wf_card_eq n); [done..|]. apply list_eq. intros i.
  destruct (decide (i < n)%nat) as [Hi|Hi].
  - destruct (wf_card_lookup n a i Ha Hi) as (x&Hx&_).
    destruct (wf_card_lookup n b i Hb Hi) as (y&Hy&_).
    rewrite Hx, Hy. f_equal. by eapply Hxy.
  - destruct Ha as (_&_&Hla&_), Hb as (_&_&Hlb&_).
    rewrite !lookup_ge_None_2; [done|lia..].
Qed.

Lemma third_card_invol a b :
  wf_card n a → wf_card n b → third_card a (third_card a b) = b.
Proof.
  intros Ha Hb. apply wf_card_values_eq; [|done|].
  { by apply third_card_wf; [|apply third_card_wf]. }
  intros i z y Hz Hy. simpl in Hz.
  apply lookup_zip_with_Some in Hz as (x&w&->&Hx&Hw).
  apply lookup_zip_with_Some in Hw as (x'&y'&->&Hx'&Hy').
  simplify_eq. apply third_value_invol.
  - by eapply (wf_card_in_range n a).
  - by eapply (wf_card_in_range n b).
Qed.

(** The third card of two different cards differs from the first (and, by
    symmetry, from the second). *)
Lemma third_card_ne_l a b :
  wf_card n a → wf_card n b → a ≠ b → third_card a b ≠ a.
Proof.
  intros Ha Hb Hne Heq. apply Hne. apply wf_card_values_eq; [done..|].
  intros i x y Hx Hy.
  pose proof (third_card_values_lookup a b i x y Hx Hy) as Hz.
  rewrite Heq, Hx in Hz. simplify_eq.
  destruct (decide (x = y)) as [|Hxy]; [done|].
  destruct (third_value_differs x y); [| |done|congruence].
  - by eapply (wf_card_in_range n a).
  - by eapply (wf_card_in_range n b).
Qed.

Lemma third_card_ne_r a b :
  wf_card n a → wf_card n b → a ≠ b → third_card a b ≠ b.
Proof. intros. rewrite third_card_comm. by apply third_card_ne_l. Qed.

(** Three cards follow the rule exactly when the third is the completion
    of the first two. *)
Lemma valid_SET_third a b c :
  wf_card n a → wf_card n b → wf_card n c →
  valid_SET a b c ↔ c = third_card a b.
Proof.
  intros Ha Hb Hc. split.
  - intros Hv. apply wf_card_values_eq; [done|by apply third_card_wf|].
    intros i z w Hz Hw. simpl in Hw.
    apply lookup_zip_with_Some in Hw as (x&y&->&Hx&Hy).
    apply same_or_different_third; [| | |by eapply Hv].
    + by eapply (wf_card_in_range n a).
    + by eapply (wf_card_in_range n b).
    + by eapply (wf_card_in_range n c).
  - intros -> i x y z Hx Hy Hz.
    rewrite (third_card_values_lookup a b i x y Hx Hy) in Hz. simplify_eq.
    apply same_or_different_third; [..|done].
    + by eapply (wf_card_in_range n a).
    + by eapply (wf_card_in_range n b).
    + apply third_value_range.
      * by eapply (wf_card_in_range n a).
      * by eapply (wf_card_in_range n b).
Qed.

(** The rule does not depend on the order of the three cards. *)
Lemma third_card_rotate a b :
  wf_card n a → wf_card n b → third_card b (third_card a b) = a.
Proof. intros. rewrite (third_card_comm a b). by apply third_card_invol. Qed.

End completion.

(** ** The validity check of the tests *)

Section validity.

Context (n : nat) (a b c : Card.t).
Context (Ha : wf_card n a) (Hb : wf_card n b) (Hc : wf_card n c).

(** The test on the number of distinct values rejects a property exactly
    when its third value is not the completing one. *)
Lemma valid_round x y z :
  0 ≤ x < 3 → 0 ≤ y < 3 → 0 ≤ z < 3 →
  bool_decide (1 < length (int_set [x; y; z]))%nat
    && bool_decide (length (int_set [x; y; z]) < length [x; y; z])%nat
  = negb (bool_decide (z = third_value x y)).
Proof.
  intros Hx Hy Hz.
  destruct (in_range_cases _ Hx) as [->|[->| ->]];
    destruct (in_range_cases _ Hy) as [->|[->| ->]];
    destruct (in_range_cases _ Hz) as [->|[->| ->]]; reflexivity.
Qed.

Lemma valid_loop_spec k i :
  (i + k = n)%nat →
  Test.valid_loop [a; b; c] (seq i k) =
  Ret (bool_decide (drop i (Card.values c) = drop i (Card.values (third_card a b)))).
Proof.
  revert i. induction k as [|k IH]; intros i Hik.
  - cbn [seq Test.valid_loop].
    rewrite (drop_ge (Card.values c)), (drop_ge (Card.values (third_card a b))).
    + done.
    + destruct (third_card_wf n a b Ha Hb) as (_&_&->&_). lia.
    + destruct Hc as (_&_&->&_). lia.
  - destruct (wf_card_lookup n c i Hc) as (z&Hz&Hrz); [lia|].
    destruct (wf_card_lookup n a i Ha) as (x&Hx&Hrx); [lia|].
    destruct (wf_card_lookup n b i Hb) as (y&Hy&Hry); [lia|].
    pose proof (third_card_values_lookup a b i x y Hx Hy) as Ht.
    rewrite (drop_S _ _ _ Hz), (drop_S _ _ _ Ht).
    cbn [seq Test.valid_loop mapM].
    rewrite (getitem_Ret _ _ _ Hx), (getitem_Ret _ _ _ Hy), (getitem_Ret _ _ _ Hz).
    cbn [mbind py_bind mret py_ret].
    rewrite valid_round by done.
    case_bool_decide as Hzt; cbn [negb].
    + rewrite IH by lia. subst z. apply f_equal, bool_decide_ext.
      split; [congruence|]. by intros [=].
    + rewrite bool_decide_eq_false_2; [done|]. by intros [=].
Qed.

(** [is_valid_SET] on three cards of one shape returns, and accepts
    exactly the triples whose third card completes the first two. *)
Lemma is_valid_SET_spec :
  Test.is_valid_SET [a; b; c] = Ret (bool_decide (c = third_card a b)).
Proof.
  unfold Test.is_valid_SET, range. cbn [getitem lookup list_lookup mbind py_bind].
  destruct Ha as (Hp&_). rewrite Hp. rewrite valid_loop_spec by lia.
  rewrite !drop_0. apply f_equal, bool_decide_ext. split.
  - intros Hv. apply (wf_card_eq n); [done|by apply third_card_wf|done].
  - by intros ->.
Qed.

Lemma is_valid_SET_true :
  Test.is_valid_SET [a; b; c] = Ret true ↔ valid_SET a b c.
Proof.
  rewrite is_valid_SET_spec, (valid_SET_third n) by done.
  split; [|by intros ->; rewrite bool_decide_eq_true_2].
  intros [=Hd]. by apply bool_decide_eq_true in Hd.
Qed.

End validity.

(** ** Pairs and triples of a list *)

Section combinations.

Context {A : Type}.
Implicit Types l : list A.

Lemma elem_of_combinations2 l x y :
  (x, y) ∈ combinations2 l ↔ [x; y] `sublist_of` l.
Proof.
  induction l as [|z l IH]; simpl.
  - split; [by intros ?%elem_of_nil | by intros ?%sublist_nil_r].
  - rewrite elem_of_app, list_elem_of_fmap, IH, sublist_cons_r. split.
    + intros [(w&[= -> ->]&Hw)|Hs]; [right|by left].
      eexists; split; [done|]. by apply singleton_sublist_l.
    + intros [Hs|(l'&[= -> <-]&Hs)]; [by right|left].
      exists y. split; [done|]. by apply singleton_sublist_l.
Qed.

Lemma elem_of_combinations3 l x y z :
  (x, y, z) ∈ combinations3 l ↔ [x; y; z] `sublist_of` l.
Proof.
  induction l as [|w l IH]; simpl.
  - split; [by intros ?%elem_of_nil | by intros ?%sublist_nil_r].
  - rewrite elem_of_app, list_elem_of_fmap, IH, sublist_cons_r. split.
    + intros [([y' z']&[= -> -> ->]&Hw)|Hs]; [right|by left].
      eexists; split; [done|]. by apply elem_of_combinations2.
    + intros [Hs|(l'&[= -> <-]&Hs)]; [by right|left].
      exists (y, z). split; [done|]. by apply elem_of_combinations2.
Qed.

Lemma length_combinations2 l : length (combinations2 l) = binom (length l) 2.
Proof.
  induction l as [|x l IH]; [done|]. simpl.
  rewrite length_app, length_fmap, IH.
  assert (∀ m, binom m 1 = m) as ->; [|lia].
  intros m. induction m as [|m IHm]; simpl; [done|]. rewrite IHm.
  destruct m; simpl; lia.
Qed.

(** Two different elements of a list are one of its pairs, in the order
    of their positions. *)
Lemma combinations2_either l x y :
  x ∈ l → y ∈ l → x ≠ y → (x, y) ∈ combinations2 l ∨ (y, x) ∈ combinations2 l.
Proof.
  induction l as [|z l IH]; [by intros ?%elem_of_nil|].
  intros Hx Hy Hne. simpl. rewrite !elem_of_app, !list_elem_of_fmap.
  apply elem_of_cons in Hx as [->|Hx]; apply elem_of_cons in Hy as [Hy|Hy].
  - congruence.
  - left. left. by exists y.
  - subst z. right. left. by exists x.
  - destruct (IH Hx Hy Hne); [left|right]; by right.
Qed.

Lemma combinations2_sublist l k x y :
  l `sublist_of` k → (x, y) ∈ combinations2 l → (x, y) ∈ combinations2 k.
Proof. rewrite !elem_of_combinations2. intros ??. by etrans. Qed.

Lemma combinations2_elem_of l x y : (x, y) ∈ combinations2 l → x ∈ l ∧ y ∈ l.
Proof.
  rewrite elem_of_combinations2. intros Hs%sublist_subseteq.
  split; apply Hs; [left | right; left].
Qed.

(** Three different elements of a list are one of its triples, in the
    order of their positions. *)
Lemma combinations3_some_order l x y z :
  x ∈ l → y ∈ l → z ∈ l → x ≠ y → x ≠ z → y ≠ z →
  ∃ t, t ∈ combinations3 l ∧
       t ∈ [(x, y, z); (x, z, y); (y, x, z); (y, z, x); (z, x, y); (z, y, x)].
Proof.
  intros Hx Hy Hz Hxy Hxz Hyz.
  induction l as [|w l IH]; [by apply elem_of_nil in Hx|].
  assert (∀ u v, u ∈ l → v ∈ l → u ≠ v →
            (w, u, v) ∈ [(x, y, z); (x, z, y); (y, x, z); (y, z, x); (z, x, y); (z, y, x)] →
            (w, v, u) ∈ [(x, y, z); (x, z, y); (y, x, z); (y, z, x); (z, x, y); (z, y, x)] →
            ∃ t, t ∈ combinations3 (w :: l) ∧
                 t ∈ [(x, y, z); (x, z, y); (y, x, z); (y, z, x); (z, x, y); (z, y, x)])
    as Hhead.
  { intros u v Hu Hv Huv Huv1 Hvu1.
    destruct (combinations2_either l u v Hu Hv Huv) as [Hp|Hp];
      [exists (w, u, v)|exists (w, v, u)]; (split; [|done]);
      simpl; apply elem_of_app; left; apply list_elem_of_fmap;
      [by exists (u, v) | by exists (v, u)]. }
  apply elem_of_cons in Hx as [->|Hx].
  { apply elem_of_cons in Hy as [|Hy]; [done|].
    apply elem_of_cons in Hz as [|Hz]; [done|].
    apply (Hhead y z); auto; repeat constructor. }
  apply elem_of_cons in Hy as [->|Hy].
  { apply elem_of_cons in Hz as [|Hz]; [done|].
    apply (Hhead x z); auto; repeat constructor. }
  apply elem_of_cons in Hz as [->|Hz].
  { apply (Hhead x y); auto; repeat constructor. }
  destruct (IH Hx Hy Hz) as (t&Ht&Hsix). exists t. split; [|done].
  simpl. apply elem_of_app. by right.
Qed.

End combinations.

(** ** Membership and the search loop *)

Section search.

Context `{PyHash} (n : nat).
Implicit Types (h : Hand.t) (pairs : list (Card.t * Card.t)).

(** Among cards of one shape the hash-and-[__eq__] lookup of a set is
    membership. *)
Lemma set_contains_spec entries key :
  Forall (wf_card n) entries → wf_card n key →
  Hand.set_contains entries key = Ret (bool_decide (key ∈ entries)).
Proof.
  intros Hes Hk. induction Hes as [|e es He Hes IH]; [done|].
  cbn [Hand.set_contains].
  assert (length (Card.values e) = length (Card.values key)) as Hlen.
  { destruct He as (_&_&->&_), Hk as (_&_&->&_). done. }
  rewrite (Card_eq_same_length e key Hlen), IH. cbn [mbind py_bind].
  destruct (decide (key = e)) as [->|Hne].
  - rewrite (bool_decide_eq_true_2 (Card.__hash__ e = Card.__hash__ e)) by done.
    rewrite (bool_decide_eq_true_2 (Card.values e = Card.values e)) by done.
    rewrite (bool_decide_eq_true_2 (e ∈ e :: es)) by left. done.
  - rewrite (bool_decide_ext (key ∈ e :: es) (key ∈ es)).
    2:{ rewrite elem_of_cons. split; [by intros [?|?] | by right]. }
    rewrite (bool_decide_eq_false_2 (Card.values e = Card.values key)).
    2:{ intros Hv. apply Hne. symmetry. by apply (wf_card_eq n). }
    by destruct (bool_decide (Card.__hash__ e = Card.__hash__ key)).
Qed.

Lemma find_card_spec h c :
  Forall (wf_card n) (Hand.cards h) → wf_card n c →
  Hand.find_card h c = Ret (bool_decide (c ∈ Hand.cards h)).
Proof. apply set_contains_spec. Qed.

(** The loop returns the triple of the first pair that [completes]. *)
Lemma search_spec h pairs :
  Forall (wf_card n) (Hand.cards h) →
  Forall (λ pr, wf_card n pr.1 ∧ wf_card n pr.2) pairs →
  Hand.search h pairs = Ret (triple_of ∘ snd <$> list_find (completes h) pairs).
Proof.
  intros Hh Hps. induction Hps as [|[c1 c2] pairs [H1 H2] Hps IH]; [done|].
  cbn [Hand.search list_find]. simpl in H1, H2.
  rewrite (calculate_third_card_spec n) by done. cbn [mbind py_bind].
  rewrite find_card_spec by (by try apply third_card_wf). cbn [mbind py_bind].
  unfold completes at 1. cbn [fst snd].
  case_bool_decide as Hin.
  - by rewrite decide_True.
  - rewrite decide_False by done. rewrite IH.
    by destruct (list_find (completes h) pairs) as [[]|].
Qed.

Lemma wf_combinations2 (l : list Card.t) :
  Forall (wf_card n) l →
  Forall (λ pr, wf_card n pr.1 ∧ wf_card n pr.2) (combinations2 l).
Proof.
  intros Hl. apply Forall_forall. intros [x y] [Hx Hy]%combinations2_elem_of.
  rewrite Forall_forall in Hl. split; by apply Hl.
Qed.

Lemma wf_find_set_pairs h :
  Forall (wf_card n) (Hand.cards h) →
  Forall (λ pr, wf_card n pr.1 ∧ wf_card n pr.2) (Hand.find_set_pairs h).
Proof.
  intros Hh. unfold Hand.find_set_pairs. apply Forall_app.
  split; apply wf_combinations2; [by apply Forall_take | by apply Forall_drop].
Qed.

Lemma find_set_spec h :
  wf_hand n h →
  Hand.find_set h =
  Ret (triple_of ∘ snd <$> list_find (completes h) (Hand.find_set_pairs h)).
Proof. intros (_&_&Hh). apply search_spec; [done|by apply wf_find_set_pairs]. Qed.

Lemma find_set_brute_force_spec h :
  wf_hand n h →
  Hand.find_set_brute_force h =
  Ret (triple_of ∘ snd <$> list_find (completes h) (combinations2 (Hand.cards h))).
Proof. intros (_&_&Hh). apply search_spec; [done|by apply wf_combinations2]. Qed.

(** The cards of a hand differ as soon as they sit at different places. *)
Lemma wf_hand_NoDup h : wf_hand n h → NoDup (Hand.cards h).
Proof. intros (_&Hnd&_). by apply NoDup_fmap_1 in Hnd. Qed.

Lemma wf_hand_pair_ne h x y :
  wf_hand n h → (x, y) ∈ combinations2 (Hand.cards h) → x ≠ y.
Proof.
  intros Hh%wf_hand_NoDup Hxy%elem_of_combinations2 ->.
  pose proof (sublist_NoDup _ _ Hh Hxy) as Hd.
  apply NoDup_cons in Hd as [Hd _]. apply Hd. by left.
Qed.

(** The pairs of the partitioned search are pairs of the whole hand. *)
Lemma find_set_pairs_subseteq h pr :
  pr ∈ Hand.find_set_pairs h → pr ∈ combinations2 (Hand.cards h).
Proof.
  destruct pr as [x y]. unfold Hand.find_set_pairs.
  intros [Hp|Hp]%elem_of_app; revert Hp; apply combinations2_sublist.
  - apply sublist_take.
  - apply sublist_drop.
Qed.

(** Pigeonhole: of three different elements of [l1 ++ l2] two lie in
    the same part, and form one of its pairs. *)
Lemma pigeonhole (l1 l2 : list Card.t) x y z :
  x ∈ l1 ++ l2 → y ∈ l1 ++ l2 → z ∈ l1 ++ l2 → x ≠ y → x ≠ z → y ≠ z →
  ∃ pr, pr ∈ combinations2 l1 ++ combinations2 l2 ∧
        pr ∈ [(x, y); (y, x); (x, z); (z, x); (y, z); (z, y)].
Proof.
  intros Hx Hy Hz Hxy Hxz Hyz.
  assert (∀ l u w, u ∈ l → w ∈ l → u ≠ w →
            (l = l1 ∨ l = l2) →
            (u, w) ∈ [(x, y); (y, x); (x, z); (z, x); (y, z); (z, y)] →
            (w, u) ∈ [(x, y); (y, x); (x, z); (z, x); (y, z); (z, y)] →
            ∃ pr, pr ∈ combinations2 l1 ++ combinations2 l2 ∧
                  pr ∈ [(x, y); (y, x); (x, z); (z, x); (y, z); (z, y)]) as Hpair.
  { intros l u w Hu Hw Huw Hl Huw1 Hwu1.
    destruct (combinations2_either l u w Hu Hw Huw) as [Hp|Hp];
      [exists (u, w)|exists (w, u)]; (split; [|done]);
      rewrite elem_of_app; destruct Hl as [->| ->]; auto. }
  apply elem_of_app in Hx as [Hx|Hx]; apply elem_of_app in Hy as [Hy|Hy].
  - apply (Hpair l1 x y); auto; repeat constructor.
  - apply elem_of_app in Hz as [Hz|Hz].
    + apply (Hpair l1 x z); auto; repeat constructor.
    + apply (Hpair l2 y z); auto; repeat constructor.
  - apply elem_of_app in Hz as [Hz|Hz].
    + apply (Hpair l1 y z); auto; repeat constructor.
    + apply (Hpair l2 x z); auto; repeat constructor.
  - apply (Hpair l2 x y); auto; repeat constructor.
Qed.

(** Any two cards of a found triple are completed by the third. *)
Lemma completes_closed h a b pr :
  wf_card n a → wf_card n b →
  completes h (a, b) → a ∈ Hand.cards h → b ∈ Hand.cards h →
  pr ∈ [(a, b); (b, a); (a, third_card a b); (third_card a b, a);
        (b, third_card a b); (third_card a b, b)] →
  completes h pr.
Proof.
  intros Ha Hb Hc Hia Hib Hpr. unfold completes in *. simpl in Hc.
  repeat (apply elem_of_cons in Hpr as [->|Hpr]); simpl.
  - done.
  - by rewrite third_card_comm.
  - by rewrite (third_card_invol n).
  - by rewrite third_card_comm, (third_card_invol n).
  - by rewrite (third_card_rotate n).
  - by rewrite third_card_comm, (third_card_rotate n).
  - by apply elem_of_nil in Hpr.
Qed.

Lemma search_result_None pairs h :
  Ret (triple_of ∘ snd <$> list_find (completes h) pairs) = Ret None ↔
  Forall (λ pr, ¬ completes h pr) pairs.
Proof.
  rewrite <- list_find_None. split.
  - intros [=Hn]. by apply fmap_None in Hn.
  - by intros ->.
Qed.

Lemma search_result_Some pairs h c1 c2 c3 :
  Ret (triple_of ∘ snd <$> list_find (completes h) pairs) = Ret (Some (c1, c2, c3)) →
  ∃ i, pairs !! i = Some (c1, c2) ∧ c3 = third_card c1 c2 ∧ c3 ∈ Hand.cards h ∧
       ∀ j pr, pairs !! j = Some pr → (j < i)%nat → ¬ completes h pr.
Proof.
  intros [=Hs]. apply fmap_Some in Hs as ([i [a b]]&Hf&[= -> -> ->]).
  apply list_find_Some in Hf as (Hi&Hc&Hbefore). by exists i.
Qed.

(** The partitioned search misses nothing: it finds no pair exactly when
    no pair of the whole hand completes. *)
Lemma find_set_complete h :
  wf_hand n h →
  Forall (λ pr, ¬ completes h pr) (Hand.find_set_pairs h) ↔
  Forall (λ pr, ¬ completes h pr) (combinations2 (Hand.cards h)).
Proof.
  intros Hh. rewrite !Forall_forall. split.
  - intros Hnone [a b] Hab Hc.
    pose proof (wf_hand_pair_ne h a b Hh Hab) as Hne.
    destruct (combinations2_elem_of _ _ _ Hab) as [Hia Hib].
    destruct Hh as (_&_&Hwf). rewrite Forall_forall in Hwf.
    pose proof (Hwf a Hia) as Ha. pose proof (Hwf b Hib) as Hb.
    destruct (pigeonhole (take (Hand.size h / 2) (Hand.cards h))
                (drop (Hand.size h / 2) (Hand.cards h)) a b (third_card a b))
      as (pr&Hpr&Hsix).
    + by rewrite take_drop.
    + by rewrite take_drop.
    + by rewrite take_drop.
    + done.
    + intros Heq. by apply (third_card_ne_l n a b).
    + intros Heq. by apply (third_card_ne_r n a b).
    + apply (Hnone pr Hpr). by apply (completes_closed h a b).
  - intros Hnone pr Hpr. by apply Hnone, find_set_pairs_subseteq.
Qed.

Lemma find_set_None_iff h :
  wf_hand n h →
  Hand.find_set h = Ret None ↔ Hand.find_set_brute_force h = Ret None.
Proof.
  intros Hh. rewrite find_set_spec, find_set_brute_force_spec by done.
  rewrite !search_result_None. by apply find_set_complete.
Qed.

(** The order of three cards does not matter to the rule. *)
Lemma is_valid_SET_closed a b t :
  wf_card n a → wf_card n b →
  t ∈ [(a, b, third_card a b); (a, third_card a b, b); (b, a, third_card a b);
       (b, third_card a b, a); (third_card a b, a, b); (third_card a b, b, a)] →
  Test.is_valid_SET [t.1.1; t.1.2; t.2] = Ret true.
Proof.
  intros Ha Hb Ht. pose proof (third_card_wf n a b Ha Hb) as Hc.
  repeat (apply elem_of_cons in Ht as [->|Ht]); simpl;
    try (rewrite (is_valid_SET_spec n) by done; apply f_equal, bool_decide_eq_true_2).
  - done.
  - by rewrite (third_card_invol n).
  - by rewrite third_card_comm.
  - by rewrite (third_card_rotate n).
  - by rewrite third_card_comm, (third_card_invol n).
  - by rewrite third_card_comm, (third_card_rotate n).
  - by apply elem_of_nil in Ht.
Qed.

(** Brute force against the ground truth. *)
Lemma brute_force_complete h :
  wf_hand n h →
  Forall (λ pr, ¬ completes h pr) (combinations2 (Hand.cards h)) ↔ ¬ has_valid_SET h.
Proof.
  intros Hh. pose proof Hh as (_&_&Hwf). rewrite Forall_forall in Hwf.
  unfold has_valid_SET. rewrite Forall_forall, Exists_exists. split.
  - intros Hnone ([[c1 c2] c3]&Ht&Hv). simpl in Hv.
    apply elem_of_combinations3 in Ht.
    pose proof (sublist_subseteq _ _ Ht) as Hsub.
    assert (wf_card n c1) as H1 by (apply Hwf, Hsub; repeat constructor).
    assert (wf_card n c2) as H2 by (apply Hwf, Hsub; repeat constructor).
    assert (wf_card n c3) as H3 by (apply Hwf, Hsub; repeat constructor).
    apply (is_valid_SET_true n) in Hv; [|done..].
    apply (valid_SET_third n) in Hv; [|done..].
    apply (Hnone (c1, c2)).
    + apply elem_of_combinations2. etrans; [|exact Ht].
      by apply sublist_skip, sublist_skip, sublist_nil_l.
    + unfold completes. simpl. rewrite <- Hv. apply Hsub. repeat constructor.
  - intros Hno [a b] Hab Hc. apply Hno.
    pose proof (wf_hand_pair_ne h a b Hh Hab) as Hne.
    destruct (combinations2_elem_of _ _ _ Hab) as [Hia Hib].
    pose proof (Hwf a Hia) as Ha. pose proof (Hwf b Hib) as Hb.
    destruct (combinations3_some_order (Hand.cards h) a b (third_card a b))
      as (t&Ht&Hsix); [done..| | |].
    + intros Heq. by apply (third_card_ne_l n a b).
    + intros Heq. by apply (third_card_ne_r n a b).
    + exists t. split; [done|]. by apply (is_valid_SET_closed a b).
Qed.

Lemma brute_force_None_iff h :
  wf_hand n h →
  Hand.find_set_brute_force h = Ret None ↔ ¬ has_valid_SET h.
Proof.
  intros Hh. rewrite find_set_brute_force_spec by done.
  rewrite search_result_None. by apply brute_force_complete.
Qed.

(** A returned triple: its pair is one of the hand's pairs and its third
    card is the completing card, found in the hand. *)
Lemma found_triple h pairs c1 c2 c3 :
  wf_hand n h →
  (∀ pr, pr ∈ pairs → pr ∈ combinations2 (Hand.cards h)) →
  Ret (triple_of ∘ snd <$> list_find (completes h) pairs) = Ret (Some (c1, c2, c3)) →
  (wf_card n c1 ∧ wf_card n c2 ∧ wf_card n c3) ∧
  (c1 ≠ c2 ∧ c1 ≠ c3 ∧ c2 ≠ c3) ∧
  (c1 ∈ Hand.cards h ∧ c2 ∈ Hand.cards h ∧ c3 ∈ Hand.cards h) ∧
  c3 = third_card c1 c2.
Proof.
  intros Hh Hsub (i&Hi&->&Hin&_)%search_result_Some.
  apply list_elem_of_lookup_2, Hsub in Hi.
  pose proof (wf_hand_pair_ne h c1 c2 Hh Hi) as Hne.
  destruct (combinations2_elem_of _ _ _ Hi) as [Hi1 Hi2].
  destruct Hh as (_&_&Hwf). rewrite Forall_forall in Hwf.
  pose proof (Hwf c1 Hi1) as H1. pose proof (Hwf c2 Hi2) as H2.
  pose proof (third_card_wf n c1 c2 H1 H2) as H3.
  assert (c1 ≠ third_card c1 c2) as Hne1.
  { intros Heq. by apply (third_card_ne_l n c1 c2). }
  assert (c2 ≠ third_card c1 c2) as Hne2.
  { intros Heq. by apply (third_card_ne_r n c1 c2). }
  done.
Qed.

(** The loop over two lists in a row is the loop over the first and, when
    that finds nothing, the loop over the second. *)
Lemma search_app h pairs1 pairs2 :
  Hand.search h (pairs1 ++ pairs2) =
  r ← Hand.search h pairs1;
  match r with
  | Some found => Ret (Some found)
  | None => Hand.search h pairs2
  end.
Proof.
  induction pairs1 as [|[c1 c2] pairs1 IH]; [done|].
  cbn [app Hand.search].
  destruct (Hand.calculate_third_card c1 c2) as [c3|]; [|done].
  cbn [mbind py_bind].
  destruct (Hand.find_card h c3) as [[]|]; [done| |done].
  cbn [mbind py_bind]. apply IH.
Qed.

(** A search that returns [None] has tested every pair of its list. *)
Lemma search_None_all_tested h pairs :
  Hand.search h pairs = Ret None →
  Forall (λ pr, Hand.calculate_third_card pr.1 pr.2 ≫= Hand.find_card h = Ret false)
         pairs.
Proof.
  induction pairs as [|[c1 c2] pairs IH]; [by constructor|].
  cbn [Hand.search]. intros Hs.
  destruct (Hand.calculate_third_card c1 c2) as [c3|] eqn:E3; [|done].
  cbn [mbind py_bind] in Hs.
  destruct (Hand.find_card h c3) as [[]|] eqn:Ef; [done| |done].
  constructor; [|by apply IH]. simpl. by rewrite E3.
Qed.

(** [set(cards)] on cards of one shape: the different cards, each once. *)
Lemma set_of_spec entries cards :
  Forall (wf_card n) entries → NoDup entries → Forall (wf_card n) cards →
  ∃ r, Hand.set_of entries cards = Ret r ∧ Forall (wf_card n) r ∧ NoDup r ∧
       ∀ c, c ∈ r ↔ c ∈ entries ∨ c ∈ cards.
Proof.
  intros He Hnd Hcs. revert entries He Hnd.
  induction Hcs as [|card cards Hc Hcs IH]; intros entries He Hnd.
  - exists entries. repeat split; [done..| |]; [by left | by intros [?|?%elem_of_nil]].
  - cbn [Hand.set_of]. rewrite set_contains_spec by done. cbn [mbind py_bind].
    case_bool_decide as Hin.
    + destruct (IH entries He Hnd) as (r&Hr&Hwf&Hd&Hel).
      exists r. split_and!; [done..|]. intros c. rewrite Hel, elem_of_cons.
      split; [tauto|]. intros [?|[->|?]]; auto.
    + destruct (IH (entries ++ [card])) as (r&Hr&Hwf&Hd&Hel).
      { apply Forall_app. split; [done|by constructor]. }
      { apply NoDup_app. split_and!; [done| |apply NoDup_singleton].
        intros x Hx ->%list_elem_of_singleton. done. }
      exists r. split_and!; [done..|]. intros c.
      rewrite Hel, elem_of_app, list_elem_of_singleton, elem_of_cons. tauto.
Qed.

(** [Hand.__init__] makes a hand of the given shape. *)
Lemma Hand_init_wf cards :
  Forall (wf_card n) cards →
  ∃ h, Hand.__init__ (Some cards) = Ret h ∧ wf_hand n h ∧
       ∀ c, c ∈ Hand.cards h ↔ c ∈ cards.
Proof.
  intros Hcs. destruct (set_of_spec [] cards) as (r&Hr&Hwf&Hd&Hel);
    [constructor|constructor|done|].
  exists {| Hand.cards := r; Hand.size := length r |}.
  unfold Hand.__init__. rewrite Hr. split_and!; [done| |].
  - split_and!; [done| |done]. simpl. apply NoDup_fmap_2_strong; [|done].
    rewrite Forall_forall in Hwf. intros x y Hx Hy. apply (wf_card_eq n); auto.
  - intros c. rewrite Hel. split; [by intros [?%elem_of_nil|?] | by right].
Qed.

End search.

(** * The claims *)

Section searches.

Context `{PyHash}.

(** C1. On every hand (duplicate-free, cards of one shape, values in
    [0,3)) [find_set] returns [None] if and only if
    [find_set_brute_force] returns [None]: pairing cards only within each
    half of the hand's list misses no SET, since two of the three cards of
    a SET share a half and their completing card is looked up in the whole
    hand. *)
Theorem find_set_none_iff_brute_force_none n h :
  wf_hand n h →
  Hand.find_set h = Ret None ↔ Hand.find_set_brute_force h = Ret None.
Proof. apply find_set_None_iff. Qed.

(** C2. A triple returned by either search consists of three pairwise
    different cards of the hand that form a valid SET; the third card is
    the one derived from the first two, and it differs from both although
    the code never compares them. *)
Theorem found_triple_is_valid_SET n h c1 c2 c3 :
  wf_hand n h →
  Hand.find_set h = Ret (Some (c1, c2, c3)) ∨
  Hand.find_set_brute_force h = Ret (Some (c1, c2, c3)) →
  (Card.values c1 ≠ Card.values c2 ∧ Card.values c1 ≠ Card.values c3 ∧
   Card.values c2 ≠ Card.values c3) ∧
  (Card.__eq__ c1 c2 = Ret false ∧ Card.__eq__ c1 c3 = Ret false ∧
   Card.__eq__ c2 c3 = Ret false) ∧
  (c1 ∈ Hand.cards h ∧ c2 ∈ Hand.cards h ∧ c3 ∈ Hand.cards h) ∧
  (Hand.find_card h c1 = Ret true ∧ Hand.find_card h c2 = Ret true ∧
   Hand.find_card h c3 = Ret true) ∧
  Hand.calculate_third_card c1 c2 = Ret c3 ∧
  Test.is_valid_SET [c1; c2; c3] = Ret true ∧
  valid_SET c1 c2 c3.
Proof.
  intros Hh Hfound.
  assert ((wf_card n c1 ∧ wf_card n c2 ∧ wf_card n c3) ∧
          (c1 ≠ c2 ∧ c1 ≠ c3 ∧ c2 ≠ c3) ∧
          (c1 ∈ Hand.cards h ∧ c2 ∈ Hand.cards h ∧ c3 ∈ Hand.cards h) ∧
          c3 = third_card c1 c2) as ((H1&H2&H3)&(N12&N13&N23)&(I1&I2&I3)&E3).
  { destruct Hfound as [Hf|Hf].
    - rewrite (find_set_spec n) in Hf by done.
      apply (found_triple n h (Hand.find_set_pairs h)); [done| |done].
      apply find_set_pairs_subseteq.
    - rewrite (find_set_brute_force_spec n) in Hf by done.
      by apply (found_triple n h (combinations2 (Hand.cards h))). }
  assert (∀ a b, wf_card n a → wf_card n b → a ≠ b →
            Card.values a ≠ Card.values b) as Hv.
  { intros a b Ha Hb Hab Hvs. by apply Hab, (wf_card_eq n). }
  assert (∀ a b, wf_card n a → wf_card n b → a ≠ b →
            Card.__eq__ a b = Ret false) as He.
  { intros a b Ha Hb Hab. rewrite Card_eq_same_length.
    - rewrite bool_decide_eq_false_2; [done|]. by apply Hv.
    - destruct Ha as (_&_&->&_), Hb as (_&_&->&_). done. }
  assert (∀ a, wf_card n a → a ∈ Hand.cards h → Hand.find_card h a = Ret true) as Hf.
  { intros a Ha Hia. destruct Hh as (_&_&Hwf).
    rewrite (find_card_spec n) by done. by rewrite bool_decide_eq_true_2. }
  split_and!; auto.
  - rewrite E3. by apply (calculate_third_card_spec n).
  - rewrite (is_valid_SET_spec n) by done. by rewrite bool_decide_eq_true_2.
  - by apply (valid_SET_third n).
Qed.

(** C3. [find_set_brute_force] returns [None] if and only if no three
    cards of the hand form a valid SET, the ground truth being
    [is_valid_SET] run on every 3-element subset of the hand. *)
Theorem brute_force_none_iff_no_valid_SET n h :
  wf_hand n h →
  Hand.find_set_brute_force h = Ret None ↔ ¬ has_valid_SET h.
Proof. apply brute_force_None_iff. Qed.

(** C5. [find_set] cuts the hand's list into its first [size // 2] cards
    and the remaining ones (half of the size, rounded up), pairs cards
    only within a half, and runs through the first half's pairs before
    the second half's; the list of pairs has
    C(size // 2, 2) + C((size + 1) // 2, 2) entries, and all of them are
    tested when it returns [None]. *)
Theorem find_set_pairs_within_halves n h :
  wf_hand n h →
  let m := Hand.size h in
  let part1 := take (m / 2)%nat (Hand.cards h) in
  let part2 := drop (m / 2)%nat (Hand.cards h) in
  let pairs := combinations2 part1 ++ combinations2 part2 in
  (Hand.cards h = part1 ++ part2 ∧
   length part1 = (m / 2)%nat ∧ length part2 = ((m + 1) / 2)%nat ∧
   ∀ c, c ∈ part1 → c ∉ part2) ∧
  Hand.find_set h = Hand.search h pairs ∧
  (∀ c1 c2, (c1, c2) ∈ pairs ↔
     [c1; c2] `sublist_of` part1 ∨ [c1; c2] `sublist_of` part2) ∧
  (∀ c1 c2, (c1, c2) ∈ pairs →
     (c1 ∈ part1 ∧ c2 ∈ part1) ∨ (c1 ∈ part2 ∧ c2 ∈ part2)) ∧
  Hand.search h pairs =
    (r ← Hand.search h (combinations2 part1);
     match r with
     | Some found => Ret (Some found)
     | None => Hand.search h (combinations2 part2)
     end) ∧
  length pairs = (binom (m / 2) 2 + binom ((m + 1) / 2) 2)%nat ∧
  (Hand.find_set h = Ret None →
   Forall (λ pr, Hand.calculate_third_card pr.1 pr.2 ≫= Hand.find_card h = Ret false)
          pairs).
Proof.
  intros Hh m part1 part2 pairs.
  pose proof (wf_hand_NoDup n h Hh) as Hnd. destruct Hh as (Hsize&_&_).
  assert (length part1 = (m / 2)%nat) as Hl1.
  { subst part1 m. rewrite length_take, Hsize.
    pose proof (Nat.Div0.div_le_upper_bound (length (Hand.cards h)) 2
                  (length (Hand.cards h))). lia. }
  assert (length part2 = ((m + 1) / 2)%nat) as Hl2.
  { subst part2 m. rewrite length_drop, Hsize.
    pose proof (Nat.div_mod_eq (length (Hand.cards h)) 2).
    pose proof (Nat.div_mod_eq (length (Hand.cards h) + 1) 2).
    pose proof (Nat.mod_upper_bound (length (Hand.cards h)) 2).
    pose proof (Nat.mod_upper_bound (length (Hand.cards h) + 1) 2). lia. }
  split_and!.
  - subst part1 part2. by rewrite take_drop.
  - done.
  - done.
  - rewrite <- (take_drop (m / 2) (Hand.cards h)) in Hnd.
    apply NoDup_app in Hnd as (_&Hdisj&_). exact Hdisj.
  - done.
  - intros c1 c2. subst pairs. by rewrite elem_of_app, !elem_of_combinations2.
  - intros c1 c2 [Hp|Hp]%elem_of_app; [left|right];
      by apply combinations2_elem_of.
  - apply search_app.
  - subst pairs. by rewrite length_app, !length_combinations2, Hl1, Hl2.
  - apply search_None_all_tested.
Qed.

(** C9. Finding no SET is not an error: on every hand both searches
    return without raising, and when the hand holds no valid SET they
    return [None]. *)
Theorem searches_return_without_raising n h :
  wf_hand n h →
  (∃ r, Hand.find_set h = Ret r) ∧
  (∃ r, Hand.find_set_brute_force h = Ret r) ∧
  (¬ has_valid_SET h →
   Hand.find_set h = Ret None ∧ Hand.find_set_brute_force h = Ret None).
Proof.
  intros Hh. split_and!.
  - rewrite (find_set_spec n) by done. by eexists.
  - rewrite (find_set_brute_force_spec n) by done. by eexists.
  - intros Hno. apply (brute_force_None_iff n) in Hno; [|done].
    split; [|done]. by apply (find_set_None_iff n).
Qed.

End searches.

Section third_card_rule.

Context (n : nat) (a b : Card.t).

(** C4. For two cards of one shape [calculate_third_card] returns the card
    that has, at every property, the common value where the two agree and
    otherwise the one value of [0,3) that differs from both; it is the
    one card that completes them to a valid SET. *)
Theorem calculate_third_card_completes_SET :
  wf_card n a → wf_card n b →
  ∃ c, Hand.calculate_third_card a b = Ret c ∧
    length (Card.values c) = n ∧
    (∀ i x y, Card.values a !! i = Some x → Card.values b !! i = Some y →
       ∃ z, Card.values c !! i = Some z ∧
         (x = y → z = x) ∧
         (x ≠ y → (0 ≤ z < 3 ∧ z ≠ x ∧ z ≠ y) ∧
                  ∀ z', 0 ≤ z' < 3 → z' ≠ x → z' ≠ y → z' = z)) ∧
    Test.is_valid_SET [a; b; c] = Ret true ∧
    valid_SET a b c ∧
    (∀ c', wf_card n c' → Test.is_valid_SET [a; b; c'] = Ret true → c' = c).
Proof.
  intros Ha Hb. pose proof (third_card_wf n a b Ha Hb) as Hc.
  exists (third_card a b). split_and!.
  - by apply (calculate_third_card_spec n).
  - by destruct Hc as (_&_&?&_).
  - intros i x y Hx Hy. exists (third_value x y).
    pose proof (wf_card_in_range n a i x Ha Hx) as Hrx.
    pose proof (wf_card_in_range n b i y Hb Hy) as Hry.
    split_and!.
    + by apply third_card_values_lookup.
    + apply third_value_same.
    + intros Hne. split.
      * split; [by apply third_value_range | by apply third_value_differs].
      * intros z' ???. by apply third_value_unique.
  - rewrite (is_valid_SET_spec n) by done. by rewrite bool_decide_eq_true_2.
  - by apply (valid_SET_third n).
  - intros c' Hc' Hv. rewrite (is_valid_SET_spec n) in Hv by done.
    injection Hv as Hv. by apply bool_decide_eq_true in Hv.
Qed.

(** C6. For two cards of one shape (different or not) the third card does
    not depend on the order of the two, and completing the first card
    with the third gives back the second; the cards compare equal under
    [Card.__eq__]. *)
Theorem calculate_third_card_symmetric_involutive :
  wf_card n a → wf_card n b →
  ∃ c c' b',
    Hand.calculate_third_card a b = Ret c ∧
    Hand.calculate_third_card b a = Ret c' ∧
    Hand.calculate_third_card a c = Ret b' ∧
    (c = c' ∧ Card.__eq__ c c' = Ret true) ∧
    (b' = b ∧ Card.__eq__ b' b = Ret true).
Proof.
  intros Ha Hb. pose proof (third_card_wf n a b Ha Hb) as Hc.
  assert (∀ d, Card.__eq__ d d = Ret true) as Hrefl.
  { intros d. by apply Card_eq_Ret_true. }
  exists (third_card a b), (third_card b a), (third_card a (third_card a b)).
  split_and!.
  - by apply (calculate_third_card_spec n).
  - by apply (calculate_third_card_spec n).
  - by apply (calculate_third_card_spec n).
  - apply third_card_comm.
  - rewrite (third_card_comm b a). apply Hrefl.
  - by apply (third_card_invol n).
  - rewrite (third_card_invol n) by done. apply Hrefl.
Qed.

(** C10. The card [calculate_third_card] returns for two cards of shape
    [n] is again a card of shape [n]: its [p] is [n], its [v] is 3, it has
    [n] values and each lies in [0,3). *)
Theorem calculate_third_card_well_formed :
  wf_card n a → wf_card n b →
  ∃ c, Hand.calculate_third_card a b = Ret c ∧
    wf_card n c ∧
    Card.p c = n ∧ Card.v c = 3%nat ∧ length (Card.values c) = Card.p c ∧
    Forall (λ x, 0 ≤ x < 3) (Card.values c).
Proof.
  intros Ha Hb. pose proof (third_card_wf n a b Ha Hb) as Hc.
  exists (third_card a b). split; [by apply (calculate_third_card_spec n)|].
  split; [done|]. destruct Hc as (Hp&Hv&Hl&Hr). by rewrite Hp.
Qed.

End third_card_rule.

(** C7. [Card.__eq__] does not compare the lengths: a card whose values are
    a proper prefix of another's compares equal to it, and the comparison in
    the other direction raises [IndexError]. *)
Theorem Card_eq_ignores_length :
  Card.__eq__ (Card.__init__ [0]) (Card.__init__ [0; 1]) = Ret true ∧
  Card.__eq__ (Card.__init__ [0; 1]) (Card.__init__ [0]) = IndexError ∧
  ¬ (∀ a b, ∃ r, Card.__eq__ a b = Ret r ∧
               (r = true ↔ Card.values a = Card.values b)).
Proof.
  split_and!; [done..|]. intros Hclaim.
  destruct (Hclaim (Card.__init__ [0]) (Card.__init__ [0; 1])) as (r&Hr&Hiff).
  injection Hr as <-. by destruct Hiff as [Hiff _]; specialize (Hiff eq_refl).
Qed.

(** C8. The two cards of C7 that compare equal have different hashes under
    CPython's tuple hash, so [__hash__] is not consistent with [__eq__] on
    cards of different lengths. *)
Theorem Card_hash_differs_on_equal_cards :
  Card.__eq__ (Card.__init__ [0]) (Card.__init__ [0; 1]) = Ret true ∧
  @Card.__hash__ cpython_hash (Card.__init__ [0]) ≠
  @Card.__hash__ cpython_hash (Card.__init__ [0; 1]).
Proof. split; [done|]. vm_compute. discriminate. Qed.

(** X14. On cards of one length the hash is consistent with equality,
    whatever the tuple hash is: two such cards that compare equal have the
    same hash. *)
Lemma Card_hash_consistent_same_length `{PyHash} a b :
  length (Card.values a) = length (Card.values b) →
  Card.__eq__ a b = Ret true → Card.__hash__ a = Card.__hash__ b.
Proof.
  intros Hlen Heq. rewrite Card_eq_same_length in Heq by done.
  injection Heq as Heq. apply bool_decide_eq_true in Heq.
  unfold Card.__hash__. by rewrite Heq.
Qed.

(** * The model on concrete hands *)

Example hash_0 : @Card.__hash__ cpython_hash (Card.__init__ [0]) = -8753497827991233192.
Proof. vm_compute. reflexivity. Qed.
Example hash_01 : @Card.__hash__ cpython_hash (Card.__init__ [0;1]) = -1950498447580522560.
Proof. vm_compute. reflexivity. Qed.
Example hash_1221 : @Card.__hash__ cpython_hash (Card.__init__ [1;2;2;1]) = 4974246720943253218.
Proof. vm_compute. reflexivity. Qed.
Example hash_nil : @Card.__hash__ cpython_hash (Card.__init__ []) = 5740354900026072187.
Proof. vm_compute. reflexivity. Qed.


(** The theorems at the sample hands and cards, under CPython's hash. *)

Lemma find_set_none_iff_brute_force_none_witness :
  wf_hand 4 sample_hand_no_SET ∧
  (@Hand.find_set cpython_hash sample_hand_no_SET = Ret None ↔
   @Hand.find_set_brute_force cpython_hash sample_hand_no_SET = Ret None).
Proof.
  split; [compute_done|].
  apply (@find_set_none_iff_brute_force_none cpython_hash 4 sample_hand_no_SET).
  compute_done.
Defined.

Lemma found_triple_is_valid_SET_witness :
  wf_hand 4 sample_hand ∧
  @Hand.find_set cpython_hash sample_hand
  = Ret (Some (sample_card2, sample_card3, sample_card1)) ∧
  Test.is_valid_SET [sample_card2; sample_card3; sample_card1] = Ret true ∧
  Card.values sample_card2 ≠ Card.values sample_card1.
Proof.
  assert (wf_hand 4 sample_hand) as Hh by compute_done.
  assert (@Hand.find_set cpython_hash sample_hand
          = Ret (Some (sample_card2, sample_card3, sample_card1))) as Hf
    by (vm_compute; reflexivity).
  destruct (@found_triple_is_valid_SET cpython_hash 4 sample_hand
              sample_card2 sample_card3 sample_card1 Hh (or_introl Hf))
    as ((_&Hne&_)&_&_&_&_&Hv&_).
  exact (conj Hh (conj Hf (conj Hv Hne))).
Defined.

Lemma brute_force_none_iff_no_valid_SET_witness :
  wf_hand 4 sample_hand_no_SET ∧
  (@Hand.find_set_brute_force cpython_hash sample_hand_no_SET = Ret None ↔
   ¬ has_valid_SET sample_hand_no_SET).
Proof.
  split; [compute_done|].
  apply (@brute_force_none_iff_no_valid_SET cpython_hash 4 sample_hand_no_SET).
  compute_done.
Defined.

Lemma find_set_pairs_within_halves_witness :
  wf_hand 4 sample_hand ∧
  length (combinations2 (take 3 (Hand.cards sample_hand)) ++
          combinations2 (drop 3 (Hand.cards sample_hand)))
  = (binom 3 2 + binom 3 2)%nat.
Proof.
  assert (wf_hand 4 sample_hand) as Hh by compute_done.
  split; [exact Hh|].
  exact (proj1 (proj2 (proj2 (proj2 (proj2 (proj2
    (@find_set_pairs_within_halves cpython_hash 4 sample_hand Hh))))))).
Defined.

Lemma searches_return_without_raising_witness :
  wf_hand 4 sample_hand_no_SET ∧
  (∃ r, @Hand.find_set cpython_hash sample_hand_no_SET = Ret r) ∧
  (∃ r, @Hand.find_set_brute_force cpython_hash sample_hand_no_SET = Ret r) ∧
  (¬ has_valid_SET sample_hand_no_SET →
   @Hand.find_set cpython_hash sample_hand_no_SET = Ret None ∧
   @Hand.find_set_brute_force cpython_hash sample_hand_no_SET = Ret None).
Proof.
  split; [compute_done|].
  apply (@searches_return_without_raising cpython_hash 4 sample_hand_no_SET).
  compute_done.
Defined.

Lemma calculate_third_card_completes_SET_witness :
  wf_card 4 sample_card1 ∧ wf_card 4 sample_card2 ∧
  ∃ c, Hand.calculate_third_card sample_card1 sample_card2 = Ret c ∧
       Test.is_valid_SET [sample_card1; sample_card2; c] = Ret true.
Proof.
  assert (wf_card 4 sample_card1) as H1 by compute_done.
  assert (wf_card 4 sample_card2) as H2 by compute_done.
  refine (conj H1 (conj H2 _)).
  destruct (calculate_third_card_completes_SET 4 sample_card1 sample_card2 H1 H2)
    as (c&Hc&_&_&Hv&_).
  exact (ex_intro _ c (conj Hc Hv)).
Defined.

Lemma calculate_third_card_symmetric_involutive_witness :
  wf_card 4 sample_card1 ∧ wf_card 4 sample_card2 ∧
  ∃ c c' b',
    Hand.calculate_third_card sample_card1 sample_card2 = Ret c ∧
    Hand.calculate_third_card sample_card2 sample_card1 = Ret c' ∧
    Hand.calculate_third_card sample_card1 c = Ret b' ∧
    (c = c' ∧ Card.__eq__ c c' = Ret true) ∧
    (b' = sample_card2 ∧ Card.__eq__ b' sample_card2 = Ret true).
Proof.
  assert (wf_card 4 sample_card1) as H1 by compute_done.
  assert (wf_card 4 sample_card2) as H2 by compute_done.
  refine (conj H1 (conj H2 _)).
  exact (calculate_third_card_symmetric_involutive 4 sample_card1 sample_card2 H1 H2).
Defined.

Lemma calculate_third_card_well_formed_witness :
  wf_card 4 sample_card1 ∧ wf_card 4 sample_card2 ∧
  ∃ c, Hand.calculate_third_card sample_card1 sample_card2 = Ret c ∧
    wf_card 4 c ∧
    Card.p c = 4%nat ∧ Card.v c = 3%nat ∧ length (Card.values c) = Card.p c ∧
    Forall (λ x, 0 ≤ x < 3) (Card.values c).
Proof.
  assert (wf_card 4 sample_card1) as H1 by compute_done.
  assert (wf_card 4 sample_card2) as H2 by compute_done.
  refine (conj H1 (conj H2 _)).
  exact (calculate_third_card_well_formed 4 sample_card1 sample_card2 H1 H2).
Defined.

Section scenarios.

#[local] Existing Instance cpython_hash.

Let hand1 : Hand.t :=
  {| Hand.cards := [sample_card1; sample_card2; sample_card3]; Hand.size := 3 |}.
Let hand2 : Hand.t :=
  {| Hand.cards := [sample_card4; sample_card5]; Hand.size := 2 |}.

(** The scenarios of [test.py], on the hands [Hand.__init__] builds. *)
Example test_valid_SET1 :
  Hand.__init__ (Some [sample_card1; sample_card2; sample_card3]) = Ret hand1 ∧
  Hand.find_set hand1 = Ret (Some (sample_card2, sample_card3, sample_card1)) ∧
  Test.is_valid_SET [sample_card2; sample_card3; sample_card1] = Ret true ∧
  Hand.find_set_brute_force hand1
  = Ret (Some (sample_card1, sample_card2, sample_card3)) ∧
  Test.is_valid_SET [sample_card1; sample_card2; sample_card3] = Ret true.
Proof. repeat split; vm_compute; reflexivity. Qed.

Example test_invalid_SET1 :
  Hand.__init__ (Some [sample_card4; sample_card5; sample_card6])
  = Ret sample_hand_no_SET ∧
  Hand.find_set sample_hand_no_SET = Ret None ∧
  Hand.find_set_brute_force sample_hand_no_SET = Ret None ∧
  Test.is_valid_SET [sample_card4; sample_card5; sample_card6] = Ret false.
Proof. repeat split; vm_compute; reflexivity. Qed.

Example test_invalid_SET2 :
  Hand.__init__ (Some [sample_card4; sample_card5]) = Ret hand2 ∧
  Hand.find_set hand2 = Ret None ∧ Hand.find_set_brute_force hand2 = Ret None.
Proof. repeat split; vm_compute; reflexivity. Qed.

Example sample_hand_find_set :
  Hand.find_set sample_hand = Ret (Some (sample_card2, sample_card3, sample_card1)) ∧
  Hand.find_set_brute_force sample_hand
  = Ret (Some (sample_card1, sample_card2, sample_card3)).
Proof. split; vm_compute; reflexivity. Qed.

End scenarios.

(** * Beyond the claims: the deck, dealing, and the edges of the model *)

(** ** Digits *)

Section digits.

Context (v : Z).
Implicit Types (p : nat) (i : Z) (ds : list Z).

Lemma length_digits p i : length (digits v p i) = p.
Proof. revert i. induction p as [|p IH]; intros i; simpl; [done|]. by rewrite IH. Qed.

Lemma digits_range p i : 0 < v → Forall (λ d, 0 ≤ d < v) (digits v p i).
Proof.
  intros Hv. revert i. induction p as [|p IH]; intros i; simpl; constructor.
  - by apply Z.mod_pos_bound.
  - apply IH.
Qed.

(** The digits of a number below [v ^ p] stand for it. *)
Lemma undigits_digits p i :
  0 < v → 0 ≤ i < v ^ Z.of_nat p → undigits v (digits v p i) = i.
Proof.
  intros Hv. revert i. induction p as [|p IH]; intros i Hi; simpl.
  - simpl in Hi. lia.
  - rewrite IH.
    + pose proof (Z.div_mod i v). lia.
    + rewrite Nat2Z.inj_succ, Z.pow_succ_r in Hi by lia.
      split; [apply Z.div_pos; lia|]. apply Z.div_lt_upper_bound; lia.
Qed.

Lemma undigits_range ds :
  0 < v → Forall (λ d, 0 ≤ d < v) ds →
  0 ≤ undigits v ds < v ^ Z.of_nat (length ds).
Proof.
  intros Hv Hds. induction Hds as [|d ds Hd Hds IH]; simpl; [lia|].
  rewrite Nat2Z.inj_succ, Z.pow_succ_r by lia. nia.
Qed.

(** A list of digits is the digits of the number it stands for. *)
Lemma digits_undigits ds :
  0 < v → Forall (λ d, 0 ≤ d < v) ds → digits v (length ds) (undigits v ds) = ds.
Proof.
  intros Hv Hds. induction Hds as [|d ds Hd Hds IH]; simpl; [done|].
  replace (d + v * undigits v ds) with (d + undigits v ds * v) by lia.
  rewrite Z.mod_add, Z.div_add by lia.
  rewrite (Z.mod_small d v), (Z.div_small d v), Z.add_0_l by done.
  by rewrite IH.
Qed.

Lemma values_loop_spec js i values :
  Deck.values_loop v js i values = values ++ digits v (length js) i.
Proof.
  revert i values. induction js as [|j js IH]; intros i values; simpl.
  - by rewrite app_nil_r.
  - by rewrite IH, <- app_assoc.
Qed.

Lemma cards_loop_spec p indices cards :
  Deck.cards_loop p v indices cards =
  cards ++ ((λ i, Card.__init__ (digits v p i)) <$> indices).
Proof.
  revert cards. induction indices as [|i indices IH]; intros cards; simpl.
  - by rewrite app_nil_r.
  - rewrite IH, <- app_assoc, values_loop_spec. unfold range.
    by rewrite length_seq.
Qed.

Lemma Deck_cards p :
  Deck.cards (Deck.__init__ p v) =
  (λ i : nat, Card.__init__ (digits v p (Z.of_nat i)))
    <$> seq 0 (Z.to_nat (v ^ Z.of_nat p)).
Proof.
  unfold Deck.__init__. simpl. rewrite cards_loop_spec. unfold range.
  by rewrite <- list_fmap_compose.
Qed.

Lemma Deck_cards_lookup p (k : nat) c :
  Deck.cards (Deck.__init__ p v) !! k = Some c ↔
  (Z.of_nat k < v ^ Z.of_nat p) ∧ c = Card.__init__ (digits v p (Z.of_nat k)).
Proof.
  rewrite Deck_cards, list_lookup_fmap, fmap_Some. split.
  - intros (j&[-> Hj]%lookup_seq&->). split; [lia|done].
  - intros [Hk ->]. exists k. split; [|done]. apply lookup_seq. lia.
Qed.

End digits.

(** ** The deck *)

(** X1. A deck records [v ** p] as its size and holds that many cards, none
    when the size is not positive; in particular a deck with [v = 0] and
    [p > 0] is empty, so the loop never divides by zero. *)
Theorem Deck_init_size (p : nat) (v : Z) :
  Deck.size (Deck.__init__ p v) = v ^ Z.of_nat p ∧
  length (Deck.cards (Deck.__init__ p v)) = Z.to_nat (v ^ Z.of_nat p) ∧
  (0 ≤ v → Z.of_nat (length (Deck.cards (Deck.__init__ p v)))
           = Deck.size (Deck.__init__ p v)) ∧
  (v = 0 → p ≠ 0%nat → Deck.cards (Deck.__init__ p v) = []).
Proof.
  split_and!.
  - done.
  - by rewrite Deck_cards, length_fmap, length_seq.
  - intros Hv. rewrite Deck_cards, length_fmap, length_seq. simpl.
    apply Z2Nat.id. by apply Z.pow_nonneg.
  - intros -> Hp. rewrite Deck_cards.
    rewrite Z.pow_0_l by lia. done.
Qed.

Lemma Deck_card_shape (p : nat) (v : Z) (k : nat) (c : Card.t) :
  0 < v →
  Deck.cards (Deck.__init__ p v) !! k = Some c →
  Card.p c = p ∧ Card.v c = 3%nat ∧ length (Card.values c) = p ∧
  Forall (λ x, 0 ≤ x < v) (Card.values c) ∧
  undigits v (Card.values c) = Z.of_nat k.
Proof.
  intros Hv [Hk ->]%Deck_cards_lookup. simpl. rewrite length_digits.
  split_and!; [done..| |].
  - by apply digits_range.
  - apply undigits_digits; lia.
Qed.

(** X2. For a positive [v], card number [k] of the deck holds the [p]
    digits of [k] in base [v], least significant first: it has [p] values,
    each in [0,v), they stand for [k], and its [v] attribute is 3 whatever
    the deck's [v] is. *)
Theorem Deck_card_digits (p : nat) (v : Z) (k : nat) (c : Card.t) :
  0 < v →
  Deck.cards (Deck.__init__ p v) !! k = Some c →
  Card.p c = p ∧ Card.v c = 3%nat ∧ length (Card.values c) = p ∧
  Forall (λ x, 0 ≤ x < v) (Card.values c) ∧
  undigits v (Card.values c) = Z.of_nat k.
Proof. apply Deck_card_shape. Qed.

Lemma Deck_values_NoDup (p : nat) (v : Z) :
  0 < v → NoDup (Card.values <$> Deck.cards (Deck.__init__ p v)).
Proof.
  intros Hv. apply NoDup_alt. intros i j vs.
  rewrite !list_lookup_fmap, !fmap_Some.
  intros (ci&[Hi ->]%Deck_cards_lookup&->) (cj&[Hj ->]%Deck_cards_lookup&Heq).
  simpl in Heq.
  assert (Z.of_nat i = Z.of_nat j); [|lia].
  rewrite <- (undigits_digits v p (Z.of_nat i)), <- (undigits_digits v p (Z.of_nat j))
    by lia.
  by rewrite Heq.
Qed.

(** X3. For a positive [v] no two cards of the deck have the same values. *)
Theorem Deck_cards_NoDup (p : nat) (v : Z) :
  0 < v → NoDup (Card.values <$> Deck.cards (Deck.__init__ p v)).
Proof. apply Deck_values_NoDup. Qed.

Lemma Deck_has_card (p : nat) (v : Z) (values : list Z) :
  0 < v → length values = p → Forall (λ x, 0 ≤ x < v) values →
  Card.__init__ values ∈ Deck.cards (Deck.__init__ p v).
Proof.
  intros Hv Hlen Hr. apply list_elem_of_lookup.
  pose proof (undigits_range v values Hv Hr) as Hu. rewrite Hlen in Hu.
  exists (Z.to_nat (undigits v values)). apply Deck_cards_lookup.
  rewrite Z2Nat.id by lia. split; [lia|].
  by rewrite <- Hlen, digits_undigits.
Qed.

(** X4. For a positive [v] the deck is complete: every list of [p] values
    of [0,v) is the values of one of its cards. *)
Theorem Deck_complete (p : nat) (v : Z) (values : list Z) :
  0 < v → length values = p → Forall (λ x, 0 ≤ x < v) values →
  Card.__init__ values ∈ Deck.cards (Deck.__init__ p v).
Proof. apply Deck_has_card. Qed.

Lemma Deck_standard_wf_iff (p : nat) (c : Card.t) :
  c ∈ Deck.cards (Deck.__init__ p 3) ↔ wf_card p c.
Proof.
  split.
  - intros [k Hk]%list_elem_of_lookup.
    destruct (Deck_card_shape p 3 k c) as (?&?&?&?&_); [lia|done|].
    by repeat split.
  - intros (Hp&Hv&Hlen&Hr). destruct c as [cp cv cvalues]. simpl in *. subst cp cv.
    rewrite <- Hlen at 1. by apply (Deck_has_card p 3 cvalues).
Qed.

(** X5. The deck with three values consists exactly of the cards of shape
    [p] the searches are specified on. *)
Theorem Deck_standard_cards (p : nat) (c : Card.t) :
  c ∈ Deck.cards (Deck.__init__ p 3) ↔ wf_card p c.
Proof. apply Deck_standard_wf_iff. Qed.

(** ** Making and dealing hands *)

Section hands.

Context `{PyHash}.

Lemma NoDup_same_length {A} (l k : list A) :
  NoDup l → NoDup k → (∀ x, x ∈ l ↔ x ∈ k) → length l = length k.
Proof. intros Hl Hk Hlk. by rewrite (NoDup_Permutation l k Hl Hk Hlk). Qed.

(** X6. [Hand(None)] is the empty hand.  [Hand(cards)] on cards of one
    shape returns without raising a hand with the same cards, each once:
    its size is the number of different cards given, at most [len(cards)]. *)
Theorem Hand_init_spec (n : nat) (cards : list Card.t) :
  Hand.__init__ None = Ret {| Hand.cards := []; Hand.size := 0 |} ∧
  (Forall (wf_card n) cards →
   ∃ h, Hand.__init__ (Some cards) = Ret h ∧ wf_hand n h ∧
        (∀ c, c ∈ Hand.cards h ↔ c ∈ cards) ∧
        Hand.size h = length (remove_dups cards) ∧
        (Hand.size h ≤ length cards)%nat).
Proof.
  split; [done|]. intros Hcs.
  destruct (Hand_init_wf n cards Hcs) as (h&Hh&Hwf&Hel).
  exists h. split_and!; [done..| |].
  - destruct Hwf as (->&Hnd%NoDup_fmap_1&_).
    apply NoDup_same_length; [done|apply NoDup_remove_dups|].
    intros c. by rewrite Hel, elem_of_remove_dups.
  - destruct Hwf as (->&Hnd%NoDup_fmap_1&_).
    apply submseteq_length, NoDup_submseteq; [done|].
    intros c. by rewrite Hel.
Qed.

(** X7. Looking a card up in a hand just made from cards of one shape
    answers whether the card was among them. *)
Theorem find_card_after_init (n : nat) (cards : list Card.t) (c : Card.t) :
  Forall (wf_card n) cards → wf_card n c →
  ∃ h, Hand.__init__ (Some cards) = Ret h ∧
       Hand.find_card h c = Ret (bool_decide (c ∈ cards)).
Proof.
  intros Hcs Hc. destruct (Hand_init_wf n cards Hcs) as (h&Hh&(_&_&Hwf)&Hel).
  exists h. split; [done|]. rewrite (find_card_spec n) by done.
  apply f_equal, bool_decide_ext, Hel.
Qed.

Lemma mapM_getitem {A} (l : list A) (picks : list nat) :
  Forall (λ i, i < length l)%nat picks →
  ∃ xs, mapM (getitem l) picks = Ret xs ∧ Forall2 (λ i x, l !! i = Some x) picks xs.
Proof.
  induction 1 as [|i picks Hi _ (xs&Hxs&Hall)]; [by exists []|].
  destruct (lookup_lt_is_Some_2 l i Hi) as [x Hx].
  exists (x :: xs). split; [|by constructor].
  cbn [mapM]. rewrite (getitem_Ret _ _ _ Hx), Hxs. done.
Qed.

Lemma deal_wf (p : nat) (picks : list nat) :
  sampled (length (Deck.cards (Deck.__init__ p 3))) picks →
  ∃ h, Deck.deal (Deck.__init__ p 3) picks = Ret h ∧ wf_hand p h ∧
       Hand.size h = length picks ∧
       ∀ c, c ∈ Hand.cards h ↔
            ∃ i, i ∈ picks ∧ Deck.cards (Deck.__init__ p 3) !! i = Some c.
Proof.
  intros [Hnd Hlt]. set (deck := Deck.__init__ p 3) in *.
  destruct (mapM_getitem (Deck.cards deck) picks Hlt) as (cs&Hcs&Hall).
  assert (∀ c, c ∈ cs ↔ ∃ i, i ∈ picks ∧ Deck.cards deck !! i = Some c) as Hmem.
  { intros c. split.
    - intros [j Hj]%list_elem_of_lookup.
      destruct (Forall2_lookup_r _ _ _ _ _ Hall Hj) as (i&Hi&Hic).
      exists i. split; [by eapply list_elem_of_lookup_2|done].
    - intros (i&[j Hj]%list_elem_of_lookup&Hic).
      destruct (Forall2_lookup_l _ _ _ _ _ Hall Hj) as (c'&Hc'&Hic').
      simplify_eq. by eapply list_elem_of_lookup_2. }
  assert (Forall (wf_card p) cs) as Hwf.
  { apply Forall_forall. intros c (i&_&Hic)%Hmem.
    apply Deck_standard_wf_iff. by eapply list_elem_of_lookup_2. }
  assert (NoDup cs) as Hndcs.
  { apply NoDup_alt. intros j1 j2 c Hj1 Hj2.
    destruct (Forall2_lookup_r _ _ _ _ _ Hall Hj1) as (i1&Hi1&Hc1).
    destruct (Forall2_lookup_r _ _ _ _ _ Hall Hj2) as (i2&Hi2&Hc2).
    assert (i1 = i2) as ->.
    { pose proof (Deck_values_NoDup p 3 ltac:(lia)) as Hd%NoDup_fmap_1.
      by eapply (NoDup_lookup _ _ _ _ Hd). }
    by eapply (NoDup_lookup _ _ _ _ Hnd). }
  destruct (Hand_init_wf p cs Hwf) as (h&Hh&Hwfh&Hel).
  exists h. unfold Deck.deal. rewrite Hcs. split_and!; [done..| |].
  - destruct Hwfh as (->&Hndh%NoDup_fmap_1&_).
    rewrite (Forall2_length _ _ _ Hall). by apply NoDup_same_length.
  - intros c. by rewrite Hel, Hmem.
Qed.

(** X8. Dealing from the deck with three values: whatever positions
    [random.sample] draws, [deal] returns a hand of shape [p] that holds
    exactly the cards at those positions, and its size is the number
    drawn. *)
Theorem deal_spec (p : nat) (picks : list nat) :
  sampled (length (Deck.cards (Deck.__init__ p 3))) picks →
  ∃ h, Deck.deal (Deck.__init__ p 3) picks = Ret h ∧ wf_hand p h ∧
       Hand.size h = length picks ∧
       ∀ c, c ∈ Hand.cards h ↔
            ∃ i, i ∈ picks ∧ Deck.cards (Deck.__init__ p 3) !! i = Some c.
Proof. apply deal_wf. Qed.

End hands.

(** ** The searches on small hands and in the test *)

Section tests.

Context `{PyHash}.

Lemma combinations3_short {A} (l : list A) : (length l < 3)%nat → combinations3 l = [].
Proof. destruct l as [|a [|b [|c l]]]; simpl; [done..|lia]. Qed.

(** X9. A hand of fewer than three cards holds no SET: both searches
    return [None] on it. *)
Theorem small_hand_no_SET (n : nat) (h : Hand.t) :
  wf_hand n h → (Hand.size h < 3)%nat →
  Hand.find_set h = Ret None ∧ Hand.find_set_brute_force h = Ret None.
Proof.
  intros Hh Hsize.
  assert (Hand.find_set_brute_force h = Ret None) as Hbf.
  { apply (brute_force_None_iff n); [done|]. unfold has_valid_SET.
    destruct Hh as (Hs&_). rewrite combinations3_short by lia.
    by intros ?%Exists_nil. }
  split; [|done]. by apply (find_set_None_iff n).
Qed.

Lemma check_hand_passes n h : wf_hand n h → Test.check_hand h = Ret true.
Proof.
  intros Hh. unfold Test.check_hand.
  pose proof (find_set_None_iff n h Hh) as Hiff.
  pose proof (find_set_spec n h Hh) as Hfs.
  pose proof (find_set_brute_force_spec n h Hh) as Hbf.
  destruct (Hand.find_set h) as [[[[a1 b1] c1]|]|] eqn:E1; [| |done].
  - destruct (Hand.find_set_brute_force h) as [[[[a2 b2] c2]|]|] eqn:E2; [| |done].
    + cbn [mbind py_bind].
      destruct (found_triple n h (Hand.find_set_pairs h) a1 b1 c1)
        as ((?&?&?)&_&_&->); [done|apply find_set_pairs_subseteq|by rewrite <- Hfs|].
      destruct (found_triple n h (combinations2 (Hand.cards h)) a2 b2 c2)
        as ((?&?&?)&_&_&->); [done|done|by rewrite <- Hbf|].
      rewrite (is_valid_SET_spec n a1 b1) by done.
      rewrite (bool_decide_eq_true_2 (third_card a1 b1 = third_card a1 b1)) by done.
      cbn [mbind py_bind]. rewrite (bool_decide_eq_true_2 (true = true)) by done.
      rewrite (is_valid_SET_spec n a2 b2) by done.
      rewrite (bool_decide_eq_true_2 (third_card a2 b2 = third_card a2 b2)) by done.
      done.
    + by destruct Hiff as [_ Hiff]; specialize (Hiff eq_refl).
  - destruct Hiff as [Hiff _]. by rewrite (Hiff eq_refl).
Qed.

(** X10. The assertions of [test_1000_valid_SETs] hold in every round,
    whatever hands are dealt and however many rounds are run: on a hand
    dealt from a deck with three values either both searches return a
    triple that [is_valid_SET] accepts, or both return [None]. *)
Theorem test_passes_on_every_draw (p : nat) (draws : list (list nat)) :
  Forall (sampled (length (Deck.cards (Deck.__init__ p 3)))) draws →
  TestDeck.test_loop (Deck.__init__ p 3) draws = Ret true ∧
  (p = 4%nat → TestDeck.test_1000_valid_SETs draws = Ret true).
Proof.
  intros Hdraws.
  assert (TestDeck.test_loop (Deck.__init__ p 3) draws = Ret true) as Hloop.
  { induction Hdraws as [|picks draws Hpicks _ IH]; [done|].
    cbn [TestDeck.test_loop].
    destruct (deal_wf p picks Hpicks) as (h&->&Hh&_).
    cbn [mbind py_bind]. by rewrite (check_hand_passes p h Hh). }
  split; [done|]. by intros ->.
Qed.

End tests.

(** ** [is_valid_SET] *)

Section valid.

Context (n : nat) (a b c : Card.t).

(** X11. On three cards of one shape the answer of [is_valid_SET] does not
    depend on the order in which the cards are given. *)
Theorem is_valid_SET_any_order :
  wf_card n a → wf_card n b → wf_card n c →
  Test.is_valid_SET [a; c; b] = Test.is_valid_SET [a; b; c] ∧
  Test.is_valid_SET [b; a; c] = Test.is_valid_SET [a; b; c] ∧
  Test.is_valid_SET [b; c; a] = Test.is_valid_SET [a; b; c] ∧
  Test.is_valid_SET [c; a; b] = Test.is_valid_SET [a; b; c] ∧
  Test.is_valid_SET [c; b; a] = Test.is_valid_SET [a; b; c].
Proof.
  intros Ha Hb Hc. rewrite !(is_valid_SET_spec n) by done.
  assert (c = third_card a b → b = third_card a c) as H1.
  { intros ->. by rewrite (third_card_invol n). }
  assert (b = third_card a c → c = third_card a b) as H2.
  { intros ->. by rewrite (third_card_invol n). }
  assert (c = third_card a b → a = third_card b c) as H3.
  { intros ->. by rewrite (third_card_rotate n). }
  assert (a = third_card b c → c = third_card a b) as H4.
  { intros ->. by rewrite (third_card_comm (third_card b c) b), (third_card_invol n). }
  split_and!; apply f_equal, bool_decide_ext.
  - split; auto.
  - by rewrite (third_card_comm b a).
  - split; auto.
  - rewrite (third_card_comm c a). split; auto.
  - rewrite (third_card_comm c b). split; auto.
Qed.

End valid.

Section valid_edges.

Implicit Types (a b : Card.t) (SET : list Card.t).

Lemma valid_loop_true SET k i :
  (∀ j, (i ≤ j < i + k)%nat →
     ∃ vs, mapM (λ c, getitem (Card.values c) j) SET = Ret vs ∧
           bool_decide (1 < length (int_set vs))%nat
             && bool_decide (length (int_set vs) < length vs)%nat = false) →
  Test.valid_loop SET (seq i k) = Ret true.
Proof.
  revert i. induction k as [|k IH]; intros i Hall; [done|].
  cbn [seq Test.valid_loop].
  destruct (Hall i) as (vs&->&Hvs); [lia|]. cbn [mbind py_bind].
  rewrite Hvs. apply IH. intros j Hj. apply Hall. lia.
Qed.

(** X12. [is_valid_SET] checks neither the number of cards nor that they
    differ: it raises [IndexError] on the empty tuple and accepts one card,
    any two cards that have the first card's number of properties, and three
    times the same card. *)
Theorem is_valid_SET_edges a b :
  Test.is_valid_SET [] = IndexError ∧
  ((Card.p a ≤ length (Card.values a))%nat →
   Test.is_valid_SET [a] = Ret true ∧ Test.is_valid_SET [a; a; a] = Ret true) ∧
  ((Card.p a ≤ length (Card.values a))%nat →
   (Card.p a ≤ length (Card.values b))%nat →
   Test.is_valid_SET [a; b] = Ret true).
Proof.
  split_and!; [done|..].
  - intros Ha. split.
    + unfold Test.is_valid_SET, range. cbn [getitem lookup list_lookup mbind py_bind].
      apply valid_loop_true. intros j Hj.
      destruct (lookup_lt_is_Some_2 (Card.values a) j) as [x Hx]; [lia|].
      exists [x]. cbn [mapM]. rewrite (getitem_Ret _ _ _ Hx). done.
    + unfold Test.is_valid_SET, range. cbn [getitem lookup list_lookup mbind py_bind].
      apply valid_loop_true. intros j Hj.
      destruct (lookup_lt_is_Some_2 (Card.values a) j) as [x Hx]; [lia|].
      exists [x; x; x]. cbn [mapM]. rewrite (getitem_Ret _ _ _ Hx).
      split; [done|]. unfold int_set. simpl.
      destruct (decide_rel elem_of x [x; x]) as [_|Hn]; [|by destruct Hn; left].
      destruct (decide_rel elem_of x [x]) as [_|Hn]; [done|by destruct Hn; left].
  - intros Ha Hb.
    unfold Test.is_valid_SET, range. cbn [getitem lookup list_lookup mbind py_bind].
    apply valid_loop_true. intros j Hj.
    destruct (lookup_lt_is_Some_2 (Card.values a) j) as [x Hx]; [lia|].
    destruct (lookup_lt_is_Some_2 (Card.values b) j) as [y Hy]; [lia|].
    exists [x; y]. cbn [mapM].
    rewrite (getitem_Ret _ _ _ Hx), (getitem_Ret _ _ _ Hy).
    split; [done|]. unfold int_set. simpl.
    by destruct (decide_rel elem_of x [y]).
Qed.

(** X13. What [Card.__eq__] computes on any two cards: it returns [True]
    exactly when [self.values] is a prefix of [other.values], raises
    [IndexError] exactly when [other.values] is a proper prefix of
    [self.values], and so returns [False] in the remaining case; a card
    always equals itself. *)
Theorem Card_eq_prefix a b :
  (Card.__eq__ a b = Ret true ↔ Card.values a `prefix_of` Card.values b) ∧
  (Card.__eq__ a b = IndexError ↔
   Card.values b `prefix_of` Card.values a ∧ Card.values b ≠ Card.values a) ∧
  (Card.__eq__ a b = Ret false ↔
   ¬ Card.values a `prefix_of` Card.values b ∧
   ¬ Card.values b `prefix_of` Card.values a) ∧
  Card.__eq__ a a = Ret true.
Proof.
  pose proof (Card_eq_Ret_true a b) as Ht.
  pose proof (Card_eq_IndexError a b) as He.
  split_and!; [done|done| |by apply Card_eq_Ret_true].
  destruct (Card.__eq__ a b) as [[]|].
  - split; [done|]. intros [Hn _]. destruct Hn. by apply Ht.
  - split; [|done]. intros _. split.
    + intros Hp. by apply Ht in Hp.
    + intros Hp. destruct (decide (Card.values b = Card.values a)) as [Heq|Hne].
      * assert (Ret false = Ret true :> py bool) as Hc; [|done].
        apply Ht. by rewrite Heq.
      * by assert (Ret false = IndexError :> py bool) as Hc by (by apply He).
  - split; [done|]. intros [_ Hn]. destruct Hn. by apply He.
Qed.

End valid_edges.

(** ** Which triple is returned, and how many pairs are tested *)

Section order.

Context `{PyHash}.
Implicit Types (h : Hand.t) (pairs : list (Card.t * Card.t)).



Lemma length_combinations2_app {A} (l1 l2 : list A) :
  length (combinations2 (l1 ++ l2)) =
  (length (combinations2 l1) + length (combinations2 l2) + length l1 * length l2)%nat.
Proof.
  induction l1 as [|x l1 IH]; simpl; [lia|].
  rewrite !length_app, !length_fmap, IH, length_app. lia.
Qed.

(** X17. The partitioned search leaves out exactly the pairs with one card
    in each half: it enumerates [(size // 2) * ((size + 1) // 2)] pairs
    fewer than brute force, which enumerates C(size, 2). *)
Theorem find_set_pairs_saved h :
  Hand.size h = length (Hand.cards h) →
  (length (Hand.find_set_pairs h) + (Hand.size h / 2) * ((Hand.size h + 1) / 2)
   = length (combinations2 (Hand.cards h)))%nat ∧
  length (combinations2 (Hand.cards h)) = binom (Hand.size h) 2.
Proof.
  intros Hsize. split; [|by rewrite length_combinations2, Hsize].
  rewrite <- (take_drop (Hand.size h / 2) (Hand.cards h)) at 1.
  rewrite length_combinations2_app. unfold Hand.find_set_pairs.
  rewrite length_app, length_take, length_drop, Hsize.
  pose proof (Nat.div_mod_eq (length (Hand.cards h)) 2).
  pose proof (Nat.div_mod_eq (length (Hand.cards h) + 1) 2).
  pose proof (Nat.mod_upper_bound (length (Hand.cards h)) 2).
  pose proof (Nat.mod_upper_bound (length (Hand.cards h) + 1) 2).
  assert ((length (Hand.cards h) / 2) `min` length (Hand.cards h)
          = length (Hand.cards h) / 2)%nat as -> by lia.
  assert (length (Hand.cards h) - length (Hand.cards h) / 2
          = (length (Hand.cards h) + 1) / 2)%nat as -> by lia.
  lia.
Qed.

End order.

(** ** [calculate_third_card] on arbitrary values and lengths *)

Section third_any.

Implicit Types (x y z : Z) (a b : Card.t).

(** Two values never exhaust [range(3)]: the difference has a first
    element. *)
Lemma difference_first x y :
  ∃ z, set_difference (int_range 3) (int_set [x; y]) !! 0%nat = Some z ∧
       0 ≤ z < 3 ∧ z ≠ x ∧ z ≠ y.
Proof.
  assert (∀ z, z ∈ set_difference (int_range 3) (int_set [x; y]) ↔
               (z = 0 ∨ z = 1 ∨ z = 2) ∧ z ≠ x ∧ z ≠ y) as Hmem.
  { intros z. unfold set_difference, int_set, int_range.
    rewrite list_elem_of_difference, elem_of_remove_dups. simpl.
    rewrite !elem_of_cons, elem_of_nil. intuition (subst; auto). }
  destruct (set_difference (int_range 3) (int_set [x; y])) as [|z l] eqn:E.
  - assert (∃ z, (z = 0 ∨ z = 1 ∨ z = 2) ∧ z ≠ x ∧ z ≠ y) as (z&Hz).
    { destruct (decide (0 ≠ x ∧ 0 ≠ y)); [by exists 0; auto|].
      destruct (decide (1 ≠ x ∧ 1 ≠ y)); [by exists 1; auto|].
      exists 2. split; [auto|lia]. }
    apply Hmem in Hz. by apply elem_of_nil in Hz.
  - exists z. split; [done|]. destruct (Hmem z) as [Hz _].
    destruct Hz as (?&?&?); [by left|]. split; [lia|done].
Qed.

Lemma third_round_any {B} x y (k : Z → py B) :
  ∃ z, completing x y z ∧
    (if bool_decide (length (int_set [x; y]) < 2)%nat
     then Ret x ≫= k
     else getitem (set_difference (int_range 3) (int_set [x; y])) 0 ≫= k) = k z.
Proof.
  destruct (decide (x = y)) as [->|Hne].
  - exists y. split; [by split|].
    assert (bool_decide (length (int_set [y; y]) < 2)%nat = true) as ->; [|done].
    unfold int_set. simpl.
    destruct (decide_rel elem_of y [y]) as [_|Hn]; [done|by destruct Hn; left].
  - destruct (difference_first x y) as (z&Hz&Hr&Hzx&Hzy).
    exists z. split; [by split|].
    assert (bool_decide (length (int_set [x; y]) < 2)%nat = false) as ->.
    { unfold int_set. simpl.
      by destruct (decide_rel elem_of x [y]) as [Hin%list_elem_of_singleton|_]. }
    by rewrite (getitem_Ret _ _ _ Hz).
Qed.

Lemma third_loop_any a b k i acc :
  Card.v a = 3%nat →
  (i + k ≤ length (Card.values a))%nat → (i + k ≤ length (Card.values b))%nat →
  (i + k ≤ length acc)%nat →
  ∃ r, Hand.third_loop a b (seq i k) acc = Ret r ∧ length r = length acc ∧
       (∀ j, (j < i)%nat → r !! j = acc !! j) ∧
       ∀ j x y, (i ≤ j < i + k)%nat →
         Card.values a !! j = Some x → Card.values b !! j = Some y →
         ∃ z, r !! j = Some z ∧ completing x y z.
Proof.
  intros Hv. revert i acc. induction k as [|k IH]; intros i acc Ha Hb Hacc.
  { exists acc. split_and!; [done..|]. intros j x y Hj. lia. }
  destruct (lookup_lt_is_Some_2 (Card.values a) i) as [x Hx]; [lia|].
  destruct (lookup_lt_is_Some_2 (Card.values b) i) as [y Hy]; [lia|].
  destruct (third_round_any x y
              (λ z, setitem acc i z ≫= Hand.third_loop a b (seq (S i) k)))
    as (z&Hz&Hround).
  destruct (IH (S i) (<[i:=z]> acc)) as (r&Hr&Hlen&Hlow&Hhigh);
    [rewrite ?length_insert; lia..|].
  exists r. split_and!.
  - cbn [seq Hand.third_loop].
    rewrite (getitem_Ret _ _ _ Hx), (getitem_Ret _ _ _ Hy). cbn [mbind py_bind].
    rewrite Hv. etrans; [exact Hround|].
    unfold setitem. rewrite bool_decide_eq_true_2 by lia. exact Hr.
  - by rewrite Hlen, length_insert.
  - intros j Hj. rewrite Hlow by lia. apply list_lookup_insert_ne. lia.
  - intros j x' y' Hj Hx' Hy'. destruct (decide (j = i)) as [->|Hji].
    + simplify_eq. exists z. split; [|done].
      rewrite Hlow by lia. apply list_lookup_insert_eq. lia.
    + apply Hhigh; [lia|done..].
Qed.

Lemma third_loop_short a b k i acc :
  Card.v a = 3%nat →
  (i + k ≤ length (Card.values a))%nat → (i + k ≤ length acc)%nat →
  (i ≤ length (Card.values b) < i + k)%nat →
  Hand.third_loop a b (seq i k) acc = IndexError.
Proof.
  intros Hv. revert i acc. induction k as [|k IH]; intros i acc Ha Hacc Hb; [lia|].
  destruct (lookup_lt_is_Some_2 (Card.values a) i) as [x Hx]; [lia|].
  cbn [seq Hand.third_loop]. rewrite (getitem_Ret _ _ _ Hx). cbn [mbind py_bind].
  destruct (decide (i = length (Card.values b))) as [Hi|Hi].
  - by rewrite getitem_IndexError by lia.
  - destruct (lookup_lt_is_Some_2 (Card.values b) i) as [y Hy]; [lia|].
    rewrite (getitem_Ret _ _ _ Hy). cbn [mbind py_bind]. rewrite Hv.
    destruct (third_round_any x y
                (λ z, setitem acc i z ≫= Hand.third_loop a b (seq (S i) k)))
      as (z&_&Hround).
    etrans; [exact Hround|].
    unfold setitem. rewrite bool_decide_eq_true_2 by lia. cbn [mbind py_bind].
    apply IH; rewrite ?length_insert; lia.
Qed.

(** X15. [calculate_third_card] on a first card made by [Card(values1)]
    from any ints and any second card: it raises [IndexError] exactly when
    the second card has fewer values, and otherwise returns a card with as
    many values as the first (further values of the second are ignored)
    that holds, at each property, the common value where the two agree and
    a value of [0,3) different from both where they differ. *)
Theorem calculate_third_card_any_values (values1 : list Z) (card2 : Card.t) :
  ((length (Card.values card2) < length values1)%nat →
   Hand.calculate_third_card (Card.__init__ values1) card2 = IndexError) ∧
  ((length values1 ≤ length (Card.values card2))%nat →
   ∃ c, Hand.calculate_third_card (Card.__init__ values1) card2 = Ret c ∧
        Card.p c = length values1 ∧ length (Card.values c) = length values1 ∧
        ∀ i x y, values1 !! i = Some x → Card.values card2 !! i = Some y →
          ∃ z, Card.values c !! i = Some z ∧
               (x = y → z = x) ∧ (x ≠ y → 0 ≤ z < 3 ∧ z ≠ x ∧ z ≠ y)).
Proof.
  unfold Hand.calculate_third_card, range. cbn [Card.p Card.__init__]. split.
  - intros Hlt. rewrite third_loop_short; [done|done|simpl; lia| |simpl; lia].
    rewrite length_replicate. lia.
  - intros Hle.
    destruct (third_loop_any (Card.__init__ values1) card2 (length values1) 0
                (replicate (length values1) 0))
      as (r&Hr&Hlen&_&Hall); [done|simpl; lia|simpl; lia| |].
    { rewrite length_replicate. lia. }
    rewrite length_replicate in Hlen.
    exists (Card.__init__ r). rewrite Hr. split_and!; [done|by simpl..|].
    intros i x y Hx Hy. apply (Hall i x y); [|done..].
    apply lookup_lt_Some in Hx. lia.
Qed.

End third_any.

(** ** Existing SETs are found, in whatever order the hand is listed *)

Section existence.

Context `{PyHash} (n : nat).
Implicit Types h : Hand.t.

(** No pair of the hand completes exactly when no two different cards of
    the hand have their third card in the hand. *)
Lemma no_pair_completes h :
  wf_hand n h →
  Forall (λ pr, ¬ completes h pr) (combinations2 (Hand.cards h)) ↔
  ∀ a b, a ∈ Hand.cards h → b ∈ Hand.cards h → a ≠ b →
         third_card a b ∉ Hand.cards h.
Proof.
  intros Hh. rewrite Forall_forall. split.
  - intros Hnone a b Ha Hb Hne Hin.
    destruct (combinations2_either _ a b Ha Hb Hne) as [Hp|Hp].
    + by apply (Hnone (a, b)).
    + apply (Hnone (b, a)); [done|]. unfold completes. simpl.
      by rewrite third_card_comm.
  - intros Hnone [a b] Hab Hc.
    destruct (combinations2_elem_of _ _ _ Hab) as [Ha Hb].
    apply (Hnone a b); [done..| |done]. by apply (wf_hand_pair_ne n h).
Qed.

(** X18. When three cards of the hand form a valid SET both searches
    return a triple. *)
Theorem existing_SET_is_found h :
  wf_hand n h → has_valid_SET h →
  (∃ c1 c2 c3, Hand.find_set h = Ret (Some (c1, c2, c3))) ∧
  (∃ c1 c2 c3, Hand.find_set_brute_force h = Ret (Some (c1, c2, c3))).
Proof.
  intros Hh Hset.
  pose proof (brute_force_None_iff n h Hh) as Hbf.
  pose proof (find_set_None_iff n h Hh) as Hfs.
  pose proof (find_set_spec n h Hh) as E1.
  pose proof (find_set_brute_force_spec n h Hh) as E2.
  split.
  - destruct (Hand.find_set h) as [[[[c1 c2] c3]|]|]; [by eauto| |done].
    destruct Hbf as [Hbf _]. destruct Hbf; [|done]. by apply Hfs.
  - destruct (Hand.find_set_brute_force h) as [[[[c1 c2] c3]|]|]; [by eauto| |done].
    destruct Hbf as [Hbf _]. by destruct Hbf.
Qed.

(** X19. Whether a search finds a SET does not depend on the order in
    which the set of cards is listed: two hands with the same cards get
    [None] from a search together. *)
Theorem search_result_independent_of_order h1 h2 :
  wf_hand n h1 → wf_hand n h2 →
  (∀ c, c ∈ Hand.cards h1 ↔ c ∈ Hand.cards h2) →
  (Hand.find_set h1 = Ret None ↔ Hand.find_set h2 = Ret None) ∧
  (Hand.find_set_brute_force h1 = Ret None ↔
   Hand.find_set_brute_force h2 = Ret None).
Proof.
  intros H1 H2 Hsame.
  assert (Hand.find_set_brute_force h1 = Ret None ↔
          Hand.find_set_brute_force h2 = Ret None) as Hbf.
  { rewrite !(find_set_brute_force_spec n), !search_result_None by done.
    rewrite !no_pair_completes by done.
    split; intros Hnone a b Ha Hb Hne Hin.
    - apply (Hnone a b); [by apply Hsame..|done|by apply Hsame].
    - apply (Hnone a b); [by apply Hsame..|done|by apply Hsame]. }
  split; [|done]. by rewrite !(find_set_None_iff n).
Qed.

End existence.

(** ** The properties above at concrete decks, hands and cards *)

Lemma Deck_init_size_witness :
  0 ≤ 3 ∧
  Z.of_nat (length (Deck.cards (Deck.__init__ 4 3))) = Deck.size (Deck.__init__ 4 3).
Proof.
  assert (0 ≤ 3) as Hv by lia. split; [exact Hv|].
  exact (proj1 (proj2 (proj2 (Deck_init_size 4 3))) Hv).
Defined.

Lemma Deck_card_digits_witness :
  0 < 3 ∧
  Deck.cards (Deck.__init__ 4 3) !! 5%nat = Some (Card.__init__ [2; 1; 0; 0]) ∧
  undigits 3 [2; 1; 0; 0] = 5.
Proof.
  assert (0 < 3) as Hv by lia.
  assert (Deck.cards (Deck.__init__ 4 3) !! 5%nat = Some (Card.__init__ [2; 1; 0; 0]))
    as Hc by (vm_compute; reflexivity).
  refine (conj Hv (conj Hc _)).
  exact (proj2 (proj2 (proj2 (proj2
    (Deck_card_digits 4 3 5 (Card.__init__ [2; 1; 0; 0]) Hv Hc))))).
Defined.

Lemma Deck_cards_NoDup_witness :
  0 < 3 ∧ NoDup (Card.values <$> Deck.cards (Deck.__init__ 4 3)).
Proof.
  assert (0 < 3) as Hv by lia. exact (conj Hv (Deck_cards_NoDup 4 3 Hv)).
Defined.

Lemma Deck_complete_witness :
  0 < 3 ∧ length [0; 1; 2; 0] = 4%nat ∧ Forall (λ x, 0 ≤ x < 3) [0; 1; 2; 0] ∧
  sample_card1 ∈ Deck.cards (Deck.__init__ 4 3).
Proof.
  assert (0 < 3) as Hv by lia.
  assert (length [0; 1; 2; 0] = 4%nat) as Hl by reflexivity.
  assert (Forall (λ x, 0 ≤ x < 3) [0; 1; 2; 0]) as Hr by compute_done.
  exact (conj Hv (conj Hl (conj Hr (Deck_complete 4 3 [0; 1; 2; 0] Hv Hl Hr)))).
Defined.

Lemma Hand_init_spec_witness :
  Forall (wf_card 4) [sample_card1; sample_card2; sample_card1] ∧
  ∃ h, @Hand.__init__ cpython_hash (Some [sample_card1; sample_card2; sample_card1])
       = Ret h ∧ Hand.size h = 2%nat.
Proof.
  assert (Forall (wf_card 4) [sample_card1; sample_card2; sample_card1]) as Hcs
    by compute_done.
  split; [exact Hcs|].
  destruct (proj2 (@Hand_init_spec cpython_hash 4
                     [sample_card1; sample_card2; sample_card1]) Hcs)
    as (h&Hh&_&_&Hsize&_).
  exists h. split; [exact Hh|]. rewrite Hsize. vm_compute. reflexivity.
Defined.

Lemma find_card_after_init_witness :
  Forall (wf_card 4) [sample_card1; sample_card2] ∧ wf_card 4 sample_card3 ∧
  ∃ h, @Hand.__init__ cpython_hash (Some [sample_card1; sample_card2]) = Ret h ∧
       @Hand.find_card cpython_hash h sample_card3
       = Ret (bool_decide (sample_card3 ∈ [sample_card1; sample_card2])).
Proof.
  assert (Forall (wf_card 4) [sample_card1; sample_card2]) as Hcs by compute_done.
  assert (wf_card 4 sample_card3) as Hc by compute_done.
  exact (conj Hcs (conj Hc
    (@find_card_after_init cpython_hash 4 [sample_card1; sample_card2]
       sample_card3 Hcs Hc))).
Defined.

Lemma deal_spec_witness :
  sampled (length (Deck.cards (Deck.__init__ 4 3))) [0; 5; 80]%nat ∧
  ∃ h, @Deck.deal cpython_hash (Deck.__init__ 4 3) [0; 5; 80]%nat = Ret h ∧
       wf_hand 4 h ∧ Hand.size h = 3%nat.
Proof.
  assert (sampled (length (Deck.cards (Deck.__init__ 4 3))) [0; 5; 80]%nat) as Hs
    by compute_done.
  split; [exact Hs|].
  destruct (@deal_spec cpython_hash 4 [0; 5; 80]%nat Hs) as (h&Hh&Hwf&Hsize&_).
  exists h. exact (conj Hh (conj Hwf Hsize)).
Defined.

Lemma small_hand_no_SET_witness :
  wf_hand 4 {| Hand.cards := [sample_card4; sample_card5]; Hand.size := 2 |} ∧
  (2 < 3)%nat ∧
  @Hand.find_set cpython_hash
    {| Hand.cards := [sample_card4; sample_card5]; Hand.size := 2 |} = Ret None ∧
  @Hand.find_set_brute_force cpython_hash
    {| Hand.cards := [sample_card4; sample_card5]; Hand.size := 2 |} = Ret None.
Proof.
  assert (wf_hand 4 {| Hand.cards := [sample_card4; sample_card5]; Hand.size := 2 |})
    as Hh by compute_done.
  assert (2 < 3)%nat as Hlt by lia.
  exact (conj Hh (conj Hlt (@small_hand_no_SET cpython_hash 4 _ Hh Hlt))).
Defined.

Lemma test_passes_on_every_draw_witness :
  Forall (sampled (length (Deck.cards (Deck.__init__ 4 3))))
         [[0; 1; 2]; [3; 40; 80; 7]]%nat ∧
  @TestDeck.test_loop cpython_hash (Deck.__init__ 4 3) [[0; 1; 2]; [3; 40; 80; 7]]%nat
  = Ret true.
Proof.
  assert (Forall (sampled (length (Deck.cards (Deck.__init__ 4 3))))
                 [[0; 1; 2]; [3; 40; 80; 7]]%nat) as Hd by compute_done.
  exact (conj Hd (proj1 (@test_passes_on_every_draw cpython_hash 4 _ Hd))).
Defined.

Lemma is_valid_SET_any_order_witness :
  wf_card 4 sample_card1 ∧ wf_card 4 sample_card2 ∧ wf_card 4 sample_card3 ∧
  Test.is_valid_SET [sample_card3; sample_card2; sample_card1]
  = Test.is_valid_SET [sample_card1; sample_card2; sample_card3].
Proof.
  assert (wf_card 4 sample_card1) as H1 by compute_done.
  assert (wf_card 4 sample_card2) as H2 by compute_done.
  assert (wf_card 4 sample_card3) as H3 by compute_done.
  refine (conj H1 (conj H2 (conj H3 _))).
  exact (proj2 (proj2 (proj2 (proj2
    (is_valid_SET_any_order 4 sample_card1 sample_card2 sample_card3 H1 H2 H3))))).
Defined.

Lemma is_valid_SET_edges_witness :
  (Card.p sample_card4 ≤ length (Card.values sample_card4))%nat ∧
  (Card.p sample_card4 ≤ length (Card.values sample_card5))%nat ∧
  Test.is_valid_SET [sample_card4; sample_card5] = Ret true.
Proof.
  assert (Card.p sample_card4 ≤ length (Card.values sample_card4))%nat as H1
    by (vm_compute; lia).
  assert (Card.p sample_card4 ≤ length (Card.values sample_card5))%nat as H2
    by (vm_compute; lia).
  exact (conj H1 (conj H2
    (proj2 (proj2 (is_valid_SET_edges sample_card4 sample_card5)) H1 H2))).
Defined.

Lemma Card_hash_consistent_same_length_witness :
  length (Card.values sample_card1) = length (Card.values (Card.__init__ [0; 1; 2; 0])) ∧
  Card.__eq__ sample_card1 (Card.__init__ [0; 1; 2; 0]) = Ret true ∧
  @Card.__hash__ cpython_hash sample_card1
  = @Card.__hash__ cpython_hash (Card.__init__ [0; 1; 2; 0]).
Proof.
  assert (length (Card.values sample_card1)
          = length (Card.values (Card.__init__ [0; 1; 2; 0]))) as Hl by reflexivity.
  assert (Card.__eq__ sample_card1 (Card.__init__ [0; 1; 2; 0]) = Ret true) as He
    by (vm_compute; reflexivity).
  exact (conj Hl (conj He
    (@Card_hash_consistent_same_length cpython_hash _ _ Hl He))).
Defined.

Lemma calculate_third_card_any_values_witness :
  (length (Card.values (Card.__init__ [7%Z])) < length [0%Z; 5%Z])%nat ∧
  Hand.calculate_third_card (Card.__init__ [0; 5]) (Card.__init__ [7]) = IndexError ∧
  (length [0%Z; 5%Z] ≤ length (Card.values (Card.__init__ [0%Z; 0%Z; 3%Z])))%nat ∧
  ∃ c, Hand.calculate_third_card (Card.__init__ [0; 5]) (Card.__init__ [0; 0; 3])
       = Ret c ∧ length (Card.values c) = 2%nat.
Proof.
  assert (length (Card.values (Card.__init__ [7%Z])) < length [0%Z; 5%Z])%nat as H1
    by (vm_compute; lia).
  assert (length [0%Z; 5%Z] ≤ length (Card.values (Card.__init__ [0%Z; 0%Z; 3%Z])))%nat as H2
    by (vm_compute; lia).
  refine (conj H1 (conj
    (proj1 (calculate_third_card_any_values [0; 5] (Card.__init__ [7])) H1)
    (conj H2 _))).
  destruct (proj2 (calculate_third_card_any_values [0; 5] (Card.__init__ [0; 0; 3])) H2)
    as (c&Hc&_&Hlen&_).
  exists c. exact (conj Hc Hlen).
Defined.


Lemma find_set_pairs_saved_witness :
  Hand.size sample_hand = length (Hand.cards sample_hand) ∧
  (length (Hand.find_set_pairs sample_hand)
   + (Hand.size sample_hand / 2) * ((Hand.size sample_hand + 1) / 2)
   = length (combinations2 (Hand.cards sample_hand)))%nat.
Proof.
  assert (Hand.size sample_hand = length (Hand.cards sample_hand)) as Hs
    by reflexivity.
  exact (conj Hs (proj1 (find_set_pairs_saved sample_hand Hs))).
Defined.

Lemma existing_SET_is_found_witness :
  wf_hand 4 sample_hand ∧ has_valid_SET sample_hand ∧
  ∃ c1 c2 c3, @Hand.find_set cpython_hash sample_hand = Ret (Some (c1, c2, c3)).
Proof.
  assert (wf_hand 4 sample_hand) as Hh by compute_done.
  assert (has_valid_SET sample_hand) as Hs by compute_done.
  exact (conj Hh (conj Hs
    (proj1 (@existing_SET_is_found cpython_hash 4 sample_hand Hh Hs)))).
Defined.

Lemma search_result_independent_of_order_witness :
  wf_hand 4 sample_hand_no_SET ∧
  wf_hand 4 {| Hand.cards := [sample_card6; sample_card4; sample_card5];
               Hand.size := 3 |} ∧
  (@Hand.find_set cpython_hash sample_hand_no_SET = Ret None ↔
   @Hand.find_set cpython_hash
     {| Hand.cards := [sample_card6; sample_card4; sample_card5]; Hand.size := 3 |}
   = Ret None).
Proof.
  assert (wf_hand 4 sample_hand_no_SET) as H1 by compute_done.
  assert (wf_hand 4 {| Hand.cards := [sample_card6; sample_card4; sample_card5];
                       Hand.size := 3 |}) as H2 by compute_done.
  refine (conj H1 (conj H2 (proj1
    (@search_result_independent_of_order cpython_hash 4 _ _ H1 H2 _)))).
  intros c. simpl. rewrite !elem_of_cons, !elem_of_nil. tauto.
Defined.

(** ** Printing *)

Section printing.

Implicit Types (s r : string) (c : ascii).

Lemma string_app_assoc s1 s2 s3 : (s1 +:+ s2) +:+ s3 = s1 +:+ s2 +:+ s3.
Proof.
  induction s1 as [|c s1 IH]; [done|].
  change (String c ((s1 +:+ s2) +:+ s3) = String c (s1 +:+ s2 +:+ s3)).
  by rewrite IH.
Qed.

Lemma string_app_nil_r s : s +:+ "" = s.
Proof.
  induction s as [|c s IH]; [done|].
  change (String c (s +:+ "") = String c s). by rewrite IH.
Qed.

Lemma chars_app s1 s2 : chars (s1 +:+ s2) = chars s1 ++ chars s2.
Proof.
  induction s1 as [|c s1 IH]; [done|].
  change (c :: chars (s1 +:+ s2) = c :: chars s1 ++ chars s2). by rewrite IH.
Qed.

(** Two strings that agree up to and after the first [c] agree on both
    parts. *)
Lemma split_at c s1 s2 r1 r2 :
  c ∉ chars s1 → c ∉ chars s2 →
  s1 +:+ String c r1 = s2 +:+ String c r2 → s1 = s2 ∧ r1 = r2.
Proof.
  revert s2. induction s1 as [|c1 s1 IH]; intros [|c2 s2] H1 H2 Heq; cbn in *.
  - by injection Heq as ->.
  - injection Heq as -> _. destruct H2. by left.
  - injection Heq as -> _. destruct H1. by left.
  - injection Heq as -> Heq. apply not_elem_of_cons in H1 as [_ H1].
    apply not_elem_of_cons in H2 as [_ H2].
    destruct (IH s2 H1 H2 Heq) as [-> ->]. done.
Qed.

Lemma pretty_N_char_digit (d : N) : sign_or_digit (pretty_N_char d).
Proof.
  unfold pretty_N_char, sign_or_digit.
  repeat case_match; cbn; repeat (first [by left | right]).
Qed.

Lemma chars_pretty_N_go (x : N) s c :
  c ∈ chars (pretty_N_go x s) → c ∈ chars s ∨ sign_or_digit c.
Proof.
  revert s. induction (N.lt_wf_0 x) as [x _ IH]; intros s.
  assert (x = 0 ∨ 0 < x)%N as [->|Hx] by lia.
  - rewrite pretty_N_go_0. by left.
  - rewrite pretty_N_go_step by done. intros Hc.
    apply IH in Hc; [|by apply N.div_lt].
    destruct Hc as [Hc|Hc]; [|by right]. cbn in Hc.
    apply elem_of_cons in Hc as [->|Hc]; [right|by left].
    apply pretty_N_char_digit.
Qed.

Lemma chars_pretty_N (x : N) c : c ∈ chars (pretty x) → sign_or_digit c.
Proof.
  unfold pretty, pretty_N. case_decide.
  - intros ->%list_elem_of_singleton. cbn. unfold sign_or_digit. cbn.
    right. by left.
  - intros [Hc|Hc]%chars_pretty_N_go; [|done]. by apply elem_of_nil in Hc.
Qed.

(** [str(x)] holds nothing but digits and a minus sign. *)
Lemma chars_pretty_Z (x : Z) c : c ∈ chars (pretty x) → sign_or_digit c.
Proof.
  unfold pretty, pretty_Z. destruct x as [|x|x].
  - intros ->%list_elem_of_singleton. unfold sign_or_digit. cbn. right. by left.
  - apply (chars_pretty_N (N.pos x)).
  - cbn. intros [->|Hc]%elem_of_cons; [by left|].
    by apply (chars_pretty_N (N.pos x)).
Qed.

Lemma not_sign_or_digit c :
  c ∈ chars ", {}" ∨ c = "010"%char → ¬ sign_or_digit c.
Proof.
  unfold sign_or_digit. cbn. intros [Hc| ->] Hd.
  - repeat (apply elem_of_cons in Hc as [->|Hc];
            [by repeat (apply elem_of_cons in Hd as [?|Hd]; [done|]);
                apply elem_of_nil in Hd|]).
    by apply elem_of_nil in Hc.
  - by repeat (apply elem_of_cons in Hd as [?|Hd]; [done|]); apply elem_of_nil in Hd.
Qed.

Lemma Card_repr_loop_spec values card_str :
  Card.repr_loop values card_str = card_str +:+ card_body values.
Proof.
  revert card_str. induction values as [|val values IH]; intros card_str; simpl.
  - by rewrite string_app_nil_r.
  - by rewrite IH, !string_app_assoc.
Qed.

Lemma card_body_inj values1 values2 :
  card_body values1 = card_body values2 → values1 = values2.
Proof.
  assert (∀ x : Z, ","%char ∉ chars (pretty x)) as Hcomma.
  { intros x Hc%chars_pretty_Z. revert Hc. apply not_sign_or_digit.
    left. cbn. by left. }
  revert values2.
  induction values1 as [|v1 values1 IH]; intros [|v2 values2] Heq; simpl in Heq.
  - done.
  - apply (f_equal chars) in Heq. rewrite chars_app in Heq.
    by destruct (chars (pretty v2)).
  - apply (f_equal chars) in Heq. rewrite chars_app in Heq.
    by destruct (chars (pretty v1)).
  - apply (split_at ","%char) in Heq as [Hv Hrest]; [|done..].
    apply (inj pretty) in Hv as ->. injection Hrest as Hrest.
    by rewrite (IH values2 Hrest).
Qed.

Lemma Card_repr_values (a b : Card.t) :
  Card.__repr__ a = Card.__repr__ b ↔ Card.values a = Card.values b.
Proof.
  unfold Card.__repr__. rewrite !Card_repr_loop_spec. split.
  - intros Heq%(inj (String.app _)). by apply card_body_inj.
  - by intros ->.
Qed.

(** X20. Cards print differently unless they have the same values: the
    text of [Card.__repr__] determines the list of values. *)
Theorem Card_repr_inj (a b : Card.t) :
  Card.__repr__ a = Card.__repr__ b ↔ Card.values a = Card.values b.
Proof. apply Card_repr_values. Qed.

Lemma chars_card_body values c :
  c ∈ chars (card_body values) → c ∈ chars ", " ∨ sign_or_digit c.
Proof.
  induction values as [|val values IH]; simpl.
  - by intros ?%elem_of_nil.
  - rewrite !chars_app, !elem_of_app.
    intros [Hc|[Hc|Hc]]; [right; by eapply chars_pretty_Z|by left|by apply IH].
Qed.

Lemma newline_not_in_Card_repr (a : Card.t) : "010"%char ∉ chars (Card.__repr__ a).
Proof.
  unfold Card.__repr__. rewrite Card_repr_loop_spec, chars_app, elem_of_app.
  intros [Hc|Hc].
  - cbn in Hc.
    by repeat (apply elem_of_cons in Hc as [?|Hc]; [done|]); apply elem_of_nil in Hc.
  - apply chars_card_body in Hc as [Hc|Hc].
    + cbn in Hc.
      by repeat (apply elem_of_cons in Hc as [?|Hc]; [done|]); apply elem_of_nil in Hc.
    + revert Hc. apply not_sign_or_digit. by right.
Qed.

Lemma Hand_repr_loop_spec cards hand_str :
  Hand.repr_loop cards hand_str = hand_str +:+ hand_body cards.
Proof.
  revert hand_str. induction cards as [|card cards IH]; intros hand_str; simpl.
  - by rewrite string_app_nil_r.
  - by rewrite IH, !string_app_assoc.
Qed.

Lemma hand_body_inj cards1 cards2 :
  hand_body cards1 +:+ "}" = hand_body cards2 +:+ "}" →
  Card.values <$> cards1 = Card.values <$> cards2.
Proof.
  assert (∀ card cards, "}" ≠ hand_body (card :: cards) +:+ "}") as Hne.
  { intros card cards Heq. simpl in Heq. unfold Card.__repr__ in Heq.
    rewrite Card_repr_loop_spec, !string_app_assoc in Heq. by cbn in Heq. }
  revert cards2.
  induction cards1 as [|c1 cards1 IH]; intros [|c2 cards2] Heq.
  - done.
  - by apply Hne in Heq.
  - symmetry in Heq. by apply Hne in Heq.
  - simpl in Heq. rewrite !string_app_assoc in Heq.
    apply (split_at "010"%char) in Heq as [Hc Hrest];
      [|apply newline_not_in_Card_repr..].
    apply Card_repr_values in Hc. rewrite !fmap_cons, Hc. f_equal. by apply IH.
Qed.

(** X21. The text of [Hand.__repr__] determines the values of the hand's
    cards, in the order they are listed. *)
Theorem Hand_repr_inj (h1 h2 : Hand.t) :
  Hand.__repr__ h1 = Hand.__repr__ h2 →
  Card.values <$> Hand.cards h1 = Card.values <$> Hand.cards h2.
Proof.
  unfold Hand.__repr__. rewrite !Hand_repr_loop_spec, !string_app_assoc.
  intros Heq%(inj (String.app _))%(inj (String.app _)). by apply hand_body_inj.
Qed.

(** X22. The text of [Deck.__repr__] determines the deck's size, number of
    values and number of properties. *)
Theorem Deck_repr_inj (d1 d2 : Deck.t) :
  Deck.__repr__ d1 = Deck.__repr__ d2 →
  Deck.size d1 = Deck.size d2 ∧ Deck.v d1 = Deck.v d2 ∧ Deck.p d1 = Deck.p d2.
Proof.
  assert (∀ x : Z, " "%char ∉ chars (pretty x)) as Hspace.
  { intros x Hc%chars_pretty_Z. revert Hc. apply not_sign_or_digit.
    left. cbn. right. by left. }
  unfold Deck.__repr__. intros Heq%(inj (String.app _)).
  apply (split_at " "%char _ _ ("cards, " +:+ _) ("cards, " +:+ _)) in Heq
    as [Hsize Heq]; [|done..].
  apply (inj (String.app _)) in Heq.
  apply (split_at " "%char _ _ ("values, and " +:+ _) ("values, and " +:+ _)) in Heq
    as [Hv Heq]; [|done..].
  apply (inj (String.app _)) in Heq.
  apply (split_at " "%char _ _ "properties" "properties") in Heq as [Hp _]; [|done..].
  apply (inj pretty) in Hsize, Hv, Hp. split_and!; [done..|lia].
Qed.

End printing.

Lemma Hand_repr_inj_witness :
  Hand.__repr__ sample_hand_no_SET
  = Hand.__repr__ {| Hand.cards := Hand.cards sample_hand_no_SET; Hand.size := 0 |} ∧
  Card.values <$> Hand.cards sample_hand_no_SET
  = Card.values <$> [sample_card4; sample_card5; sample_card6].
Proof.
  assert (Hand.__repr__ sample_hand_no_SET
          = Hand.__repr__ {| Hand.cards := Hand.cards sample_hand_no_SET;
                             Hand.size := 0 |}) as Heq by (vm_compute; reflexivity).
  exact (conj Heq (Hand_repr_inj _ _ Heq)).
Defined.

Lemma Deck_repr_inj_witness :
  Deck.__repr__ (Deck.__init__ 4 3)
  = Deck.__repr__ {| Deck.cards := []; Deck.p := 4; Deck.v := 3; Deck.size := 81 |} ∧
  Deck.size (Deck.__init__ 4 3) = 81.
Proof.
  assert (Deck.__repr__ (Deck.__init__ 4 3)
          = Deck.__repr__ {| Deck.cards := []; Deck.p := 4; Deck.v := 3;
                             Deck.size := 81 |}) as Heq by (vm_compute; reflexivity).
  exact (conj Heq (proj1 (Deck_repr_inj _ _ Heq))).
Defined.
